(** * The financial projection engine of FinSim AI

    A shallow embedding of the numeric core of the application:
    - [generateProjectionData] (components/FinancialCharts.tsx), the
      month-by-month projection of cash, loans and investments;
    - the risk figures of the [RiskAnalysis] component (debt payments,
      emergency-fund ratio, debt-to-income ratio and their bands);
    - the debt-payment totals of [App] and [CreditCoach];
    - [addLoan] of the [SimulationControl] component.

    JavaScript numbers are kept abstract behind the class [Number], which
    lists the operations the source applies to them.  Two instances are
    given: [Q] (exact arithmetic, for the algebraic statements) and the
    kernel's binary64 floats (what the program actually runs on, for
    evaluating concrete inputs).  Statements that only depend on the shape
    of the computation are proved once, for every instance. *)

From Stdlib Require Import ZArith QArith Qminmax Qround Qpower Lqa Lia Ascii String List
  DecimalString.
From Stdlib Require PrimFloat Uint63.
From stdpp Require Import base option list sorting.

Open Scope string_scope.
Open Scope list_scope.

(** ** Numbers *)

(** The operations of the JavaScript [number] type that the source uses.
    [lit] injects the integer literals of the program text, [truthy] is
    the conversion applied by [||], [Math_pow] takes the (integer)
    exponent the source passes. *)
Class Number (num : Type) : Type := {
  lit : Z -> num;
  num_add : num -> num -> num;
  num_sub : num -> num -> num;
  num_mul : num -> num -> num;
  num_div : num -> num -> num;
  num_gt : num -> num -> bool;
  num_lt : num -> num -> bool;
  num_ge : num -> num -> bool;
  num_le : num -> num -> bool;
  num_eq : num -> num -> bool;
  truthy : num -> bool;
  Math_max : num -> num -> num;
  Math_pow : num -> Z -> num
}.

Declare Scope js_scope.
Delimit Scope js_scope with js.
Notation "a + b" := (num_add a b) : js_scope.
Notation "a - b" := (num_sub a b) : js_scope.
Notation "a * b" := (num_mul a b) : js_scope.
Notation "a / b" := (num_div a b) : js_scope.
Notation "a >? b" := (num_gt a b) (at level 70, no associativity) : js_scope.
Notation "a <? b" := (num_lt a b) (at level 70, no associativity) : js_scope.
Notation "a >=? b" := (num_ge a b) (at level 70, no associativity) : js_scope.
Notation "a <=? b" := (num_le a b) (at level 70, no associativity) : js_scope.
Notation "a === b" := (num_eq a b) (at level 70, no associativity) : js_scope.

(** Exact rational arithmetic.  Division by zero is outside this
    instance's intended use ([Qdiv] returns 0 there, JavaScript does not):
    statements over [Q] that divide by a variable guard the divisor. *)
Definition Qlt_bool (a b : Q) : bool := negb (Qle_bool b a).

#[global] Instance Q_Number : Number Q := {|
  lit := inject_Z;
  num_add := Qplus;
  num_sub := Qminus;
  num_mul := Qmult;
  num_div := Qdiv;
  num_gt := fun a b => Qlt_bool b a;
  num_lt := Qlt_bool;
  num_ge := fun a b => Qle_bool b a;
  num_le := Qle_bool;
  num_eq := Qeq_bool;
  truthy := fun a => negb (Qeq_bool a 0);
  Math_max := Qmax;
  Math_pow := Qpower
|}.

(** IEEE 754 binary64, the representation of a JavaScript number. *)
Module F64.
Import PrimFloat.

Definition of_Z (z : Z) : float :=
  match z with
  | Z0 => zero
  | Zpos _ => of_uint63 (Uint63.of_Z z)
  | Zneg p => opp (of_uint63 (Uint63.of_Z (Zpos p)))
  end.

(** ToBoolean: false for NaN, +0 and -0. *)
Definition to_boolean (x : float) : bool := negb (is_nan x || is_zero x).

(** Math.max on two arguments: NaN if either is NaN, and +0 above -0. *)
Definition max (a b : float) : float :=
  if is_nan a || is_nan b then nan
  else if ltb a b then b
  else if ltb b a then a
  else if get_sign a then b else a.

(** Powers by repeated multiplication.  Math.pow is only required to
    approximate the result; the two agree wherever the products are
    exact, in particular for the base 1. *)
Definition pow (b : float) (n : Z) : float :=
  match n with
  | Z0 => one
  | Zpos p => Pos.iter (mul b) one p
  | Zneg p => div one (Pos.iter (mul b) one p)
  end.
End F64.

#[global] Instance F64_Number : Number PrimFloat.float := {|
  lit := F64.of_Z;
  num_add := PrimFloat.add;
  num_sub := PrimFloat.sub;
  num_mul := PrimFloat.mul;
  num_div := PrimFloat.div;
  num_gt := fun a b => PrimFloat.ltb b a;
  num_lt := PrimFloat.ltb;
  num_ge := fun a b => PrimFloat.leb b a;
  num_le := PrimFloat.leb;
  num_eq := PrimFloat.eqb;
  truthy := F64.to_boolean;
  Math_max := F64.max;
  Math_pow := F64.pow
|}.

(** ** Data model (types.ts) *)

Inductive TransactionType := income | expense.

Definition TransactionType_eqb (a b : TransactionType) : bool :=
  match a, b with
  | income, income | expense, expense => true
  | _, _ => false
  end.

Record Transaction (num : Type) := mkTransaction {
  tx_id : string;
  date : string;
  description : string;
  amount : num;
  category : string;
  type : TransactionType
}.

Record CreditCard (num : Type) := mkCreditCard {
  card_id : string;
  card_name : string;
  cashbackRate : num;
  annualFee : num;
  card_interestRate : num
}.

Record Loan (num : Type) := mkLoan {
  loan_id : string;
  loan_name : string;
  principal : num;
  remainingBalance : num;
  interestRate : num;
  monthlyPayment : num;
  termMonths : num
}.

Record Investment (num : Type) := mkInvestment {
  inv_id : string;
  inv_name : string;
  balance : num;
  annualReturnRate : num;
  monthlyContribution : num
}.

Record FinancialState (num : Type) := mkFinancialState {
  cashBalance : num;
  monthlyIncome : num;
  transactions : list (Transaction num);
  creditCards : list (CreditCard num);
  loans : list (Loan num);
  investments : list (Investment num)
}.

(** The fields [generateProjectionData] writes; the optional
    [simulatedSavings] and [simulatedNetWorth] are never set by it. *)
Record MonthlyData (num : Type) := mkMonthlyData {
  month : string;
  actualSavings : num;
  actualNetWorth : num;
  investmentValue : num
}.

Arguments mkTransaction {num}. Arguments tx_id {num}. Arguments date {num}.
Arguments description {num}. Arguments amount {num}. Arguments category {num}.
Arguments type {num}.
Arguments mkCreditCard {num}. Arguments card_id {num}. Arguments card_name {num}.
Arguments cashbackRate {num}. Arguments annualFee {num}.
Arguments card_interestRate {num}.
Arguments mkLoan {num}. Arguments loan_id {num}. Arguments loan_name {num}.
Arguments principal {num}. Arguments remainingBalance {num}.
Arguments interestRate {num}. Arguments monthlyPayment {num}.
Arguments termMonths {num}.
Arguments mkInvestment {num}. Arguments inv_id {num}. Arguments inv_name {num}.
Arguments balance {num}. Arguments annualReturnRate {num}.
Arguments monthlyContribution {num}.
Arguments mkFinancialState {num}. Arguments cashBalance {num}.
Arguments monthlyIncome {num}. Arguments transactions {num}.
Arguments creditCards {num}. Arguments loans {num}. Arguments investments {num}.
Arguments mkMonthlyData {num}. Arguments month {num}.
Arguments actualSavings {num}. Arguments actualNetWorth {num}.
Arguments investmentValue {num}.

(** The decimal text of an integer, as a template literal prints it. *)
Definition decimal (z : Z) : string := NilZero.string_of_int (Z.to_int z).

(** ** The engine, for any number representation *)

Section Engine.
Context {num : Type} `{Number num}.
Open Scope js_scope.

(** Field assignments [loan.remainingBalance = v] and [inv.balance = v]
    on a record value. *)
Definition set_remainingBalance (l : Loan num) (v : num) : Loan num :=
  mkLoan (loan_id l) (loan_name l) (principal l) v (interestRate l)
         (monthlyPayment l) (termMonths l).

Definition set_balance (i : Investment num) (v : num) : Investment num :=
  mkInvestment (inv_id i) (inv_name i) v (annualReturnRate i)
               (monthlyContribution i).

(** [xs.reduce((acc, x) => acc + f(x), 0)] *)
Definition sumOf {A : Type} (f : A -> num) (xs : list A) : num :=
  fold_left (fun acc x => acc + f x) xs (lit 0).

Definition isIncome (t : Transaction num) : bool :=
  TransactionType_eqb (type t) income.
Definition isExpense (t : Transaction num) : bool :=
  TransactionType_eqb (type t) expense.

(** *** FinancialCharts.tsx: base monthly figures *)

(** The three constants computed before the loop. *)
Record BaseStats := mkBaseStats {
  statMonthlyIncome : num;
  statMonthlyExpenses : num;
  statMonthlyCashback : num
}.

(** [txs.filter(income).reduce(...) || fallback] *)
Definition baseMonthlyIncome (txs : list (Transaction num)) (fallback : num)
  : num :=
  let s := sumOf amount (List.filter isIncome txs) in
  if truthy s then s else fallback.

Definition baseMonthlyExpenses (txs : list (Transaction num)) : num :=
  sumOf amount (List.filter isExpense txs).

Definition maxCashbackRate (cards : list (CreditCard num)) : num :=
  fold_left (fun mx card => Math_max mx (cashbackRate card)) cards (lit 0).

Definition baseStats (income : num) (txs : list (Transaction num))
           (cards : list (CreditCard num)) : BaseStats :=
  let monthlyExpenses := baseMonthlyExpenses txs in
  {| statMonthlyIncome := baseMonthlyIncome txs income;
     statMonthlyExpenses := monthlyExpenses;
     statMonthlyCashback :=
       monthlyExpenses * (maxCashbackRate cards / lit 100) |}.

Definition stateStats (state : FinancialState num) : BaseStats :=
  baseStats (monthlyIncome state) (transactions state) (creditCards state).

(** *** One month of flow *)

(** Body of [activeLoans.forEach]: returns the updated [currentCash]
    and the loan after the in-place update. *)
Definition loanStep (currentCash : num) (loan : Loan num)
  : num * Loan num :=
  if remainingBalance loan >? lit 0 then
    let interest :=
      remainingBalance loan * (interestRate loan / lit 100 / lit 12) in
    let principalPayment := monthlyPayment loan - interest in
    let currentCash := currentCash - monthlyPayment loan in
    let loan := set_remainingBalance loan
                  (remainingBalance loan - principalPayment) in
    let loan := if remainingBalance loan <? lit 0
                then set_remainingBalance loan (lit 0) else loan in
    (currentCash, loan)
  else (currentCash, loan).

(** Body of [activeInvestments.forEach]. *)
Definition investmentStep (currentCash : num) (inv : Investment num)
  : num * Investment num :=
  let currentCash := currentCash - monthlyContribution inv in
  let inv := set_balance inv (balance inv + monthlyContribution inv) in
  let monthlyRate := annualReturnRate inv / lit 100 / lit 12 in
  let inv := set_balance inv (balance inv + balance inv * monthlyRate) in
  (currentCash, inv).

(** [xs.forEach(x => body)] where the body updates [currentCash] and
    the element: the elements are visited first to last. *)
Fixpoint forEach {A : Type} (body : num -> A -> num * A)
         (currentCash : num) (xs : list A) : num * list A :=
  match xs with
  | [] => (currentCash, [])
  | x :: rest =>
      let '(currentCash, x') := body currentCash x in
      let '(currentCash, rest') := forEach body currentCash rest in
      (currentCash, x' :: rest')
  end.

(** The loop-carried variables. *)
Record ProjectionVars := mkVars {
  currentCash : num;
  activeLoans : list (Loan num);
  activeInvestments : list (Investment num)
}.

(** The entry pushed for month [i], from the current cash and the totals
    of part A of the loop body. *)
Definition entry (i : Z) (cash totalLoanBalance totalInvestmentValue : num)
  : MonthlyData num :=
  {| month := ("M" ++ decimal i)%string;
     actualSavings := cash;
     actualNetWorth := cash + totalInvestmentValue - totalLoanBalance;
     investmentValue := totalInvestmentValue |}.

Definition snapshot (i : Z) (v : ProjectionVars) : MonthlyData num :=
  let totalLoanBalance := sumOf remainingBalance (activeLoans v) in
  let totalInvestmentValue := sumOf balance (activeInvestments v) in
  entry i (currentCash v) totalLoanBalance totalInvestmentValue.

(** The cash movements of part B that do not involve loans or
    investments: income and cashback in, expenses out. *)
Definition cashAfterFlows (stats : BaseStats) (cash : num) : num :=
  let cash := cash + statMonthlyIncome stats in
  let cash := cash + statMonthlyCashback stats in
  cash - statMonthlyExpenses stats.

(** Part B of the loop body. *)
Definition monthlyFlow (stats : BaseStats) (v : ProjectionVars)
  : ProjectionVars :=
  let cash := cashAfterFlows stats (currentCash v) in
  let '(cash, ls) := forEach loanStep cash (activeLoans v) in
  let '(cash, ivs) := forEach investmentStep cash (activeInvestments v) in
  mkVars cash ls ivs.

(** [for (let i = 0; i <= months; i++) { push; if (i === months) break; flow }]
    from the value [i] on.  [fuel] bounds the number of iterations;
    [projectionLoop_fuel] shows the bound used below is never reached. *)
Fixpoint projectionLoop (fuel : nat) (stats : BaseStats)
         (months i : Z) (v : ProjectionVars) (data : list (MonthlyData num))
  : list (MonthlyData num) :=
  match fuel with
  | O => data
  | S fuel' =>
      if (i <=? months)%Z then
        let data := data ++ [snapshot i v] in
        if (i =? months)%Z then data
        else projectionLoop fuel' stats months (i + 1)%Z
                            (monthlyFlow stats v) data
      else data
  end.

Definition initialVars (state : FinancialState num) : ProjectionVars :=
  mkVars (cashBalance state) (loans state) (investments state).

(** [months] is an integer, as at the call sites (the literal 12). *)
Definition generateProjectionData (state : FinancialState num) (months : Z)
  : list (MonthlyData num) :=
  projectionLoop (S (Z.to_nat months)) (stateStats state) months 0%Z
    (initialVars state) [].

End Engine.

Arguments BaseStats : clear implicits.
Arguments ProjectionVars : clear implicits.

(** ** RiskAnalysis.tsx *)

Module RiskAnalysis.
Section Defs.
Context {num : Type} `{Number num}.
Open Scope js_scope.

Definition monthlyExpenses (state : FinancialState num) : num :=
  sumOf amount (List.filter isExpense (transactions state)).

Definition debtPayments (state : FinancialState num) : num :=
  sumOf monthlyPayment (loans state).

Definition totalBurn (state : FinancialState num) : num :=
  monthlyExpenses state + debtPayments state.

Definition emergencyRatio (state : FinancialState num) : num :=
  if totalBurn state >? lit 0
  then cashBalance state / totalBurn state
  else lit 0.

Definition dtiRatio (state : FinancialState num) : num :=
  if monthlyIncome state >? lit 0
  then (debtPayments state / monthlyIncome state) * lit 100
  else lit 0.

(** The object the two status helpers return. *)
Record Status := mkStatus {
  color : string;
  bg : string;
  label : string;
  width : string
}.

Definition getEmergencyStatus (ratio : num) : Status :=
  if ratio >=? lit 6 then
    mkStatus "text-emerald-600" "bg-emerald-500" "Excellent" "100%"
  else if ratio >=? lit 3 then
    mkStatus "text-emerald-600" "bg-emerald-500" "Good" "75%"
  else if ratio >=? lit 1 then
    mkStatus "text-amber-600" "bg-amber-500" "At Risk" "30%"
  else
    mkStatus "text-rose-600" "bg-rose-500" "Critical" "10%".

Definition getDtiStatus (ratio : num) : Status :=
  if ratio === lit 0 then
    mkStatus "text-emerald-600" "bg-emerald-500" "Debt Free" "0%"
  else if ratio <=? lit 20 then
    mkStatus "text-emerald-600" "bg-emerald-500" "Healthy" "20%"
  else if ratio <=? lit 36 then
    mkStatus "text-amber-600" "bg-amber-500" "Manageable" "50%"
  else
    mkStatus "text-rose-600" "bg-rose-500" "High Burden" "90%".

Definition emergencyStatus (state : FinancialState num) : Status :=
  getEmergencyStatus (emergencyRatio state).

Definition dtiStatus (state : FinancialState num) : Status :=
  getDtiStatus (dtiRatio state).

End Defs.
End RiskAnalysis.

(** ** App.tsx: derived metrics *)

Module App.
Section Defs.
Context {num : Type} `{Number num}.
Open Scope js_scope.

Definition totalExpenses (activeState : FinancialState num) : num :=
  sumOf amount (List.filter isExpense (transactions activeState)).

Definition totalDebt (activeState : FinancialState num) : num :=
  sumOf remainingBalance (loans activeState).

Definition totalMonthlyDebtPayments (activeState : FinancialState num) : num :=
  sumOf monthlyPayment (loans activeState).

Definition totalInvestments (activeState : FinancialState num) : num :=
  sumOf balance (investments activeState).

Definition monthlyInvContribution (activeState : FinancialState num) : num :=
  sumOf monthlyContribution (investments activeState).

Definition estimatedSavings (activeState : FinancialState num) : num :=
  monthlyIncome activeState - totalExpenses activeState
  - totalMonthlyDebtPayments activeState - monthlyInvContribution activeState.

End Defs.
End App.

(** ** CreditCoach.tsx: the debt figures of [calculateMockScore] *)

Module CreditCoach.
Section Defs.
Context {num : Type} `{Number num}.
Open Scope js_scope.

Definition debtPayments (state : FinancialState num) : num :=
  sumOf monthlyPayment (loans state).

Definition dti (state : FinancialState num) : num :=
  if monthlyIncome state >? lit 0
  then (debtPayments state / monthlyIncome state) * lit 100
  else lit 0.

End Defs.
End CreditCoach.

(** ** SimulationControl.tsx *)

Module SimulationControl.
Section Defs.
Context {num : Type} `{Number num}.
Open Scope js_scope.

(** [Number.prototype.toFixed], a built-in of the host language that only
    feeds the display name of the new loan. *)
Variable toFixed : num -> nat -> string.

(** The payment expression of [addLoan] for a term of [n] months (the
    source fixes [n] to 60). *)
Definition annuityPayment (newLoanAmount r : num) (n : Z) : num :=
  (newLoanAmount * r * Math_pow (lit 1 + r) n) / (Math_pow (lit 1 + r) n - lit 1).

(** [addLoan], as a function of the component state it reads
    ([newLoanAmount], [newLoanRate], [simState]) and of the clock value
    [now] returned by [Date.now()]; the result is the state handed to
    [setSimState]. *)
Definition addLoan (now : Z) (newLoanAmount newLoanRate : num)
           (simState : FinancialState num) : FinancialState num :=
  let r := newLoanRate / lit 100 / lit 12 in
  let n := 60%Z in
  let monthlyPayment := annuityPayment newLoanAmount r n in
  let loan :=
    {| loan_id := ("sim-loan-" ++ decimal now)%string;
       loan_name := ("Simulated Loan ($"
                       ++ toFixed (newLoanAmount / lit 1000) 1 ++ "k)")%string;
       principal := newLoanAmount;
       remainingBalance := newLoanAmount;
       interestRate := newLoanRate;
       monthlyPayment := monthlyPayment;
       termMonths := lit n |} in
  {| cashBalance := cashBalance simState + newLoanAmount;
     monthlyIncome := monthlyIncome simState;
     transactions := transactions simState;
     creditCards := creditCards simState;
     loans := loans simState ++ [loan];
     investments := investments simState |}.

End Defs.
End SimulationControl.

(** ** How a call completes *)

(** The two failures the design documents name. *)
Inductive EngineError := InvalidLoanParameters | InvalidProjectionHorizon.

(** A call either returns a value or throws. *)
Inductive Completion (A : Type) : Type :=
| Returns (a : A)
| Throws (e : EngineError).
Arguments Returns {A}.
Arguments Throws {A}.

Section Calls.
Context {num : Type} `{Number num}.

(** Neither function contains a [throw], and none of the operations
    they use (arithmetic, comparisons, array methods on arrays) throws:
    every call completes by returning. *)
Definition call_generateProjectionData (state : FinancialState num)
           (months : Z) : Completion (list (MonthlyData num)) :=
  Returns (generateProjectionData state months).

Definition call_addLoan (toFixed : num -> nat -> string) (now : Z)
           (newLoanAmount newLoanRate : num) (simState : FinancialState num)
  : Completion (FinancialState num) :=
  Returns (SimulationControl.addLoan toFixed now newLoanAmount newLoanRate
                                     simState).

End Calls.

(** ** The projection at the level of object references

    [generateProjectionData] receives a reference to the caller's state
    object, whose [loans] and [investments] are arrays of references to
    mutable objects, and its loop assigns to fields in place.  This second
    rendering of the same function keeps the objects in a store, so that
    what the call does to the caller's objects can be stated.  The store
    is typed: loan objects, investment objects, and arrays of references. *)

Module Heap.
Section Defs.
Context {num : Type} `{Number num}.
Open Scope js_scope.

Definition loc := nat.

Record heap := mkHeap {
  loanObjs : list (Loan num);
  investmentObjs : list (Investment num);
  arrays : list (list loc)
}.

(** The state object: numbers are held by value, the transaction and
    card lists are only ever read, [loans] and [investments] hold array
    references. *)
Record StateObj := mkStateObj {
  st_cashBalance : num;
  st_monthlyIncome : num;
  st_transactions : list (Transaction num);
  st_creditCards : list (CreditCard num);
  st_loans : loc;
  st_investments : loc
}.

(** Store-passing computations; [None] is a dereference of a reference
    the store does not hold. *)
Definition M (A : Type) : Type := heap -> option (A * heap).

Definition ret {A : Type} (a : A) : M A := fun h => Some (a, h).

Definition bind {A B : Type} (m : M A) (k : A -> M B) : M B :=
  fun h => match m h with
           | Some (a, h') => k a h'
           | None => None
           end.

Notation "'let*' x ':=' m 'in' k" := (bind m (fun x => k))
  (at level 10, x name, m at level 100, k at level 200, only parsing).

(** Allocation, read and write of the three kinds of object. *)
Definition newLoan (l : Loan num) : M loc :=
  fun h => Some (length (loanObjs h),
                 mkHeap (loanObjs h ++ [l]) (investmentObjs h) (arrays h)).

Definition getLoan (p : loc) : M (Loan num) :=
  fun h => match loanObjs h !! p with
           | Some l => Some (l, h)
           | None => None
           end.

Definition putLoan (p : loc) (l : Loan num) : M unit :=
  fun h => match loanObjs h !! p with
           | Some _ => Some (tt, mkHeap (<[p:=l]> (loanObjs h))
                                        (investmentObjs h) (arrays h))
           | None => None
           end.

Definition newInvestment (i : Investment num) : M loc :=
  fun h => Some (length (investmentObjs h),
                 mkHeap (loanObjs h) (investmentObjs h ++ [i]) (arrays h)).

Definition getInvestment (p : loc) : M (Investment num) :=
  fun h => match investmentObjs h !! p with
           | Some i => Some (i, h)
           | None => None
           end.

Definition putInvestment (p : loc) (i : Investment num) : M unit :=
  fun h => match investmentObjs h !! p with
           | Some _ => Some (tt, mkHeap (loanObjs h)
                                        (<[p:=i]> (investmentObjs h)) (arrays h))
           | None => None
           end.

Definition newArray (elems : list loc) : M loc :=
  fun h => Some (length (arrays h),
                 mkHeap (loanObjs h) (investmentObjs h) (arrays h ++ [elems])).

Definition getArray (p : loc) : M (list loc) :=
  fun h => match arrays h !! p with
           | Some elems => Some (elems, h)
           | None => None
           end.

(** [loan.remainingBalance = v] and [inv.balance = v] through a reference. *)
Definition assign_remainingBalance (p : loc) (v : num) : M unit :=
  let* l := getLoan p in putLoan p (set_remainingBalance l v).

Definition assign_balance (p : loc) (v : num) : M unit :=
  let* i := getInvestment p in putInvestment p (set_balance i v).

(** [arr.map(x => f(x))], [arr.reduce((acc, x) => acc + x.field, acc0)] and
    [arr.forEach(x => body)] over the elements of an array of references. *)
Fixpoint mapRefs {B : Type} (f : loc -> M B) (ps : list loc) : M (list B) :=
  match ps with
  | [] => ret []
  | p :: rest =>
      let* y := f p in
      let* ys := mapRefs f rest in
      ret (y :: ys)
  end.

Fixpoint reduceRefs {A : Type} (get : loc -> M A) (field : A -> num)
         (acc : num) (ps : list loc) : M num :=
  match ps with
  | [] => ret acc
  | p :: rest =>
      let* x := get p in
      reduceRefs get field (acc + field x) rest
  end.

Fixpoint forEachRef (body : num -> loc -> M num) (currentCash : num)
         (ps : list loc) : M num :=
  match ps with
  | [] => ret currentCash
  | p :: rest =>
      let* currentCash := body currentCash p in
      forEachRef body currentCash rest
  end.

(** [l => ({ ...l })]: a new object with the same fields. *)
Definition copyLoan (p : loc) : M loc :=
  let* l := getLoan p in newLoan l.

Definition copyInvestment (p : loc) : M loc :=
  let* i := getInvestment p in newInvestment i.

Definition loanBody (currentCash : num) (p : loc) : M num :=
  let* loan := getLoan p in
  if remainingBalance loan >? lit 0 then
    let interest :=
      remainingBalance loan * (interestRate loan / lit 100 / lit 12) in
    let principalPayment := monthlyPayment loan - interest in
    let currentCash := currentCash - monthlyPayment loan in
    let* _ := assign_remainingBalance p
                (remainingBalance loan - principalPayment) in
    let* loan := getLoan p in
    let* _ := (if remainingBalance loan <? lit 0
               then assign_remainingBalance p (lit 0) else ret tt) in
    ret currentCash
  else ret currentCash.

Definition investmentBody (currentCash : num) (p : loc) : M num :=
  let* inv := getInvestment p in
  let currentCash := currentCash - monthlyContribution inv in
  let* _ := assign_balance p (balance inv + monthlyContribution inv) in
  let* inv := getInvestment p in
  let monthlyRate := annualReturnRate inv / lit 100 / lit 12 in
  let* _ := assign_balance p (balance inv + balance inv * monthlyRate) in
  ret currentCash.

Fixpoint projectionLoop (fuel : nat) (stats : BaseStats num) (months i : Z)
         (currentCash : num) (activeLoans activeInvestments : loc)
         (data : list (MonthlyData num)) : M (list (MonthlyData num)) :=
  match fuel with
  | O => ret data
  | S fuel' =>
      if (i <=? months)%Z then
        let* ls := getArray activeLoans in
        let* totalLoanBalance :=
          reduceRefs getLoan remainingBalance (lit 0) ls in
        let* ivs := getArray activeInvestments in
        let* totalInvestmentValue :=
          reduceRefs getInvestment balance (lit 0) ivs in
        let data :=
          data ++ [entry i currentCash totalLoanBalance totalInvestmentValue] in
        if (i =? months)%Z then ret data
        else
          let currentCash := cashAfterFlows stats currentCash in
          let* ls := getArray activeLoans in
          let* currentCash := forEachRef loanBody currentCash ls in
          let* ivs := getArray activeInvestments in
          let* currentCash := forEachRef investmentBody currentCash ivs in
          projectionLoop fuel' stats months (i + 1)%Z currentCash
                         activeLoans activeInvestments data
      else ret data
  end.

Definition generateProjectionData (state : StateObj) (months : Z)
  : M (list (MonthlyData num)) :=
  let currentCash := st_cashBalance state in
  let* ls := getArray (st_loans state) in
  let* copies := mapRefs copyLoan ls in
  let* activeLoans := newArray copies in
  let* ivs := getArray (st_investments state) in
  let* copies := mapRefs copyInvestment ivs in
  let* activeInvestments := newArray copies in
  let stats := baseStats (st_monthlyIncome state) (st_transactions state)
                         (st_creditCards state) in
  projectionLoop (S (Z.to_nat months)) stats months 0%Z currentCash
                 activeLoans activeInvestments [].

(** The value a state object denotes in a store: every reference
    replaced by the object it points to.  [None] when a reference
    dangles. *)
Definition contents (h : heap) (state : StateObj)
  : option (FinancialState num) :=
  match arrays h !! st_loans state, arrays h !! st_investments state with
  | Some ps, Some qs =>
      match mapM (fun p => loanObjs h !! p) ps,
            mapM (fun q => investmentObjs h !! q) qs with
      | Some ls, Some ivs =>
          Some {| cashBalance := st_cashBalance state;
                  monthlyIncome := st_monthlyIncome state;
                  transactions := st_transactions state;
                  creditCards := st_creditCards state;
                  loans := ls;
                  investments := ivs |}
      | _, _ => None
      end
  | _, _ => None
  end.

(** Every object of [h] is still in [h'], at the same reference and with
    the same fields. *)
Definition unchanged (h h' : heap) : Prop :=
  (forall p l, loanObjs h !! p = Some l -> loanObjs h' !! p = Some l) /\
  (forall p i, investmentObjs h !! p = Some i ->
               investmentObjs h' !! p = Some i) /\
  (forall p a, arrays h !! p = Some a -> arrays h' !! p = Some a).

End Defs.
End Heap.

Arguments Heap.heap : clear implicits.
Arguments Heap.StateObj : clear implicits.
Arguments Heap.M : clear implicits.

(** * Further code of the same files *)

(** ** Minimum and rounding *)

(** [Math.min] and [Math.round], used by the credit score only. *)
Class NumberMath (num : Type) : Type := {
  Math_min : num -> num -> num;
  Math_round : num -> num
}.

(** [Math.round] is the nearest integer, a tie going up: floor(x + 1/2). *)
#[global] Instance Q_NumberMath : NumberMath Q := {|
  Math_min := Qmin;
  Math_round := fun q => inject_Z (Qfloor (q + (1 # 2)))
|}.

Module F64Math.
Import PrimFloat.
#[local] Open Scope float_scope.

(** Math.min on two arguments: NaN if either is NaN, and -0 below +0. *)
Definition min (a b : float) : float :=
  if is_nan a || is_nan b then nan
  else if ltb a b then a
  else if ltb b a then b
  else if get_sign a then a else b.

Definition two52 : float := 4503599627370496%float.

(** The nearest integer, ties to even: exact below 2^52 in magnitude,
    and every larger float is an integer already. *)
Definition nearest_even (x : float) : float :=
  if ltb (abs x) two52 then
    if get_sign x then (x - two52) + two52 else (x + two52) - two52
  else x.

(** Math.round: the nearest integer, a tie going up; NaN and the
    infinities are returned as they are, and a zero result keeps the sign
    of the argument. *)
Definition round (x : float) : float :=
  let t := nearest_even x in
  let r := if eqb (x - t) 0.5%float then t + 1 else t in
  if is_zero r && get_sign x then neg_zero else r.

End F64Math.

#[global] Instance F64_NumberMath : NumberMath PrimFloat.float := {|
  Math_min := F64Math.min;
  Math_round := F64Math.round
|}.

(** ** RiskAnalysis.tsx: the high-interest alert *)

Section RiskAlert.
Context {num : Type} `{Number num}.
Open Scope js_scope.

(** [creditCards.some(c => c.interestRate > 20) || loans.some(l => l.interestRate > 10)] *)
Definition highInterestDetected (state : FinancialState num) : bool :=
  existsb (fun c => card_interestRate c >? lit 20) (creditCards state)
  || existsb (fun l => interestRate l >? lit 10) (loans state).

End RiskAlert.

(** ** CreditCoach.tsx: the mock score *)

Module CreditScore.
Section Defs.
Context {num : Type} `{Number num} `{NumberMath num}.
Open Scope js_scope.

(** [xs.length] as a number. *)
Definition lengthOf {A : Type} (xs : list A) : num := lit (Z.of_nat (length xs)).

Definition calculateMockScore (state : FinancialState num) : num :=
  let score := lit 750 in
  let dti := CreditCoach.dti state in
  let score := if dti >? lit 30 then score - (dti - lit 30) else score in
  let score := score - (lengthOf (loans state) * lit 5) in
  let score := score - (lengthOf (creditCards state) * lit 2) in
  Math_round (Math_max (lit 300) (Math_min (lit 850) score)).

Definition getScoreColor (s : num) : string :=
  if s >=? lit 800 then "text-emerald-600"
  else if s >=? lit 740 then "text-indigo-600"
  else if s >=? lit 670 then "text-amber-600"
  else "text-rose-600".

End Defs.
End CreditScore.

(** ** SimulationControl.tsx: the other scenario actions *)

Module SimulationActions.
Section Defs.
Context {num : Type} `{Number num}.
Open Scope js_scope.

(** The text a template literal gives a number, a built-in of the host
    language that only feeds the display name of the new card. *)
Variable numberToString : num -> string.

(** The literal 19.99: the quotient of two integers is rounded once, as
    the literal is. *)
Definition apr_19_99 : num := lit 1999 / lit 100.

Definition addCreditCard (now : Z) (newCardCashback : num)
           (simState : FinancialState num) : FinancialState num :=
  let card :=
    {| card_id := ("sim-card-" ++ decimal now)%string;
       card_name := ("Simulated Rewards ("
                       ++ numberToString newCardCashback ++ "%)")%string;
       cashbackRate := newCardCashback;
       annualFee := lit 0;
       card_interestRate := apr_19_99 |} in
  {| cashBalance := cashBalance simState;
     monthlyIncome := monthlyIncome simState;
     transactions := transactions simState;
     creditCards := creditCards simState ++ [card];
     loans := loans simState;
     investments := investments simState |}.

Definition addInvestment (now : Z) (invAmount invReturn : num)
           (simState : FinancialState num) : FinancialState num :=
  let investment :=
    {| inv_id := ("sim-inv-" ++ decimal now)%string;
       inv_name := "Simulated Portfolio";
       balance := lit 0;
       annualReturnRate := invReturn;
       monthlyContribution := invAmount |} in
  {| cashBalance := cashBalance simState;
     monthlyIncome := monthlyIncome simState;
     transactions := transactions simState;
     creditCards := creditCards simState;
     loans := loans simState;
     investments := investments simState ++ [investment] |}.

End Defs.
End SimulationActions.

(** ** App.tsx: adding a transaction, and the dashboard figures *)

Module AppHandlers.
Section Defs.
Context {num : Type} `{Number num}.
Open Scope js_scope.

(** [parseFloat], a built-in of the host language. *)
Variable parseFloat : string -> num.

(** [handleAddTransaction], as a function of the form fields, of the
    clock ([now] for the id, [today] for the date part of the ISO time)
    and of [currentState]; the result is the state the component holds
    afterwards.  An empty description or amount returns before anything
    is set. *)
Definition handleAddTransaction (now : Z) (today : string)
           (newTransDesc newTransAmount newTransCategory : string)
           (newTransType : TransactionType)
           (currentState : FinancialState num) : FinancialState num :=
  if String.eqb newTransDesc "" || String.eqb newTransAmount "" then
    currentState
  else
    let amount := parseFloat newTransAmount in
    let newTx :=
      {| tx_id := decimal now;
         date := today;
         description := newTransDesc;
         amount := amount;
         category := newTransCategory;
         type := newTransType |} in
    {| cashBalance :=
         if TransactionType_eqb newTransType income
         then cashBalance currentState + amount
         else cashBalance currentState - amount;
       monthlyIncome := monthlyIncome currentState;
       transactions := newTx :: transactions currentState;
       creditCards := creditCards currentState;
       loans := loans currentState;
       investments := investments currentState |}.

(** The net worth shown on the dashboard. *)
Definition netWorth (activeState : FinancialState num) : num :=
  cashBalance activeState + App.totalInvestments activeState
  - App.totalDebt activeState.

(** The three figures of the "Simulation Impact" panel. *)
Definition projectedNetWorth (simState : FinancialState num) : num :=
  match rev (generateProjectionData simState 12) with
  | e :: _ => if truthy (actualNetWorth e) then actualNetWorth e else lit 0
  | [] => lit 0
  end.

Definition investmentsContribution (simState : FinancialState num) : num :=
  fold_left (fun a i => a + monthlyContribution i * lit 12)
            (investments simState) (lit 0).

Definition newLoanDebt (simState currentState : FinancialState num) : num :=
  sumOf principal (loans simState) - sumOf principal (loans currentState).

End Defs.
End AppHandlers.

(** ** Objects used as maps

    [ExpenseBreakdown] totals the expenses in an object literal, [{}],
    keyed by the category.  Such an object has own properties, kept in the
    order of their creation, and inherits the properties of
    [Object.prototype]: reading a name it does not own yields the
    inherited value, if there is one. *)

Module JsObject.
Section Defs.
Context {num : Type} `{Number num}.
Open Scope js_scope.

(** The conversion of a number to a string, and the text a built-in
    function converts to, by the name it has on [Object.prototype]. *)
Variables (numberToString : num -> string) (functionToString : string -> string).

(** What [o[key]] can evaluate to: a number, a string, a built-in object
    or function (known by the text it converts to under [+]), or
    [undefined]. *)
Inductive Value :=
| JsNumber (n : num)
| JsString (s : string)
| JsBuiltin (text : string)
| JsUndefined.

(** The own properties, in the order of their creation. *)
Definition Obj := list (string * Value).

(** The property names of [Object.prototype]. *)
Definition Object_prototype : list string :=
  [ "constructor"; "__defineGetter__"; "__defineSetter__"; "hasOwnProperty";
    "__lookupGetter__"; "__lookupSetter__"; "isPrototypeOf";
    "propertyIsEnumerable"; "toString"; "valueOf"; "__proto__";
    "toLocaleString" ].

Fixpoint getOwn (key : string) (o : Obj) : option Value :=
  match o with
  | [] => None
  | (k, v) :: rest => if String.eqb k key then Some v else getOwn key rest
  end.

(** [o[key]]: the own property, else what [Object.prototype] has under
    the name.  [__proto__] is an accessor there: it returns the prototype
    of [o], which is [Object.prototype] itself. *)
Definition get (key : string) (o : Obj) : Value :=
  match getOwn key o with
  | Some v => v
  | None =>
      if String.eqb key "__proto__" then JsBuiltin "[object Object]"
      else if existsb (String.eqb key) Object_prototype
           then JsBuiltin (functionToString key)
           else JsUndefined
  end.

Fixpoint setOwn (key : string) (v : Value) (o : Obj) : Obj :=
  match o with
  | [] => [(key, v)]
  | (k, w) :: rest =>
      if String.eqb k key then (k, v) :: rest
      else (k, w) :: setOwn key v rest
  end.

(** [o[key] = v] for a number or a string [v]: the setter of [__proto__]
    ignores such a value; any other name becomes, or stays, an own
    property. *)
Definition set (key : string) (v : Value) (o : Obj) : Obj :=
  if String.eqb key "__proto__" then o else setOwn key v o.

(** [(current || 0) + amount]: a sum of numbers, or a concatenation once
    the left operand is a string or converts to one. *)
Definition orZeroPlus (current : Value) (amount : num) : Value :=
  match current with
  | JsNumber n => JsNumber ((if truthy n then n else lit 0) + amount)
  | JsString s =>
      if String.eqb s "" then JsNumber (lit 0 + amount)
      else JsString (s ++ numberToString amount)
  | JsBuiltin text => JsString (text ++ numberToString amount)
  | JsUndefined => JsNumber (lit 0 + amount)
  end.

Definition digitOf (c : ascii) : option N :=
  let n := N_of_ascii c in
  if ((48 <=? n) && (n <=? 57))%N then Some (n - 48)%N else None.

Fixpoint decimalValue (s : string) (acc : N) : option N :=
  match s with
  | EmptyString => Some acc
  | String c rest =>
      match digitOf c with
      | Some d => decimalValue rest (10 * acc + d)%N
      | None => None
      end
  end.

(** An array index: the canonical decimal text of an integer from 0 to
    2^32 - 2. *)
Definition arrayIndex (key : string) : option N :=
  match key with
  | EmptyString => None
  | String "0" (String _ _) => None
  | _ =>
      match decimalValue key 0 with
      | Some n => if (n <=? 4294967294)%N then Some n else None
      | None => None
      end
  end.

Definition indexLe (a b : N * string) : Prop := (fst a <= fst b)%N.

#[global] Instance indexLe_dec (a b : N * string) : Decision (indexLe a b) :=
  N.le_dec (fst a) (fst b).

(** [Object.keys(o)]: the array indices in ascending order, then the
    other names in the order of their creation. *)
Definition keys (o : Obj) : list string :=
  let names := map fst o in
  let indexed :=
    omap (fun key => option_map (fun n => (n, key)) (arrayIndex key)) names in
  map snd (merge_sort indexLe indexed)
  ++ List.filter (fun key => negb (bool_decide (is_Some (arrayIndex key))))
                 names.

End Defs.

Arguments Value : clear implicits.
Arguments Obj : clear implicits.

End JsObject.

(** ** FinancialCharts.tsx: the chart data *)

Module Charts.
Section Defs.
Context {num : Type} `{Number num}.
Open Scope js_scope.

(** A point of the net-worth chart; [Simulated] is absent when the
    simulated series has no entry at the index. *)
Record MergedPoint := mkMergedPoint {
  name : string;
  Current : num;
  Simulated : option num
}.

Definition mergedData (current : FinancialState num)
           (simulated : option (FinancialState num)) : list MergedPoint :=
  let months := 12%Z in
  let currentData := generateProjectionData current months in
  let simulatedData :=
    match simulated with
    | Some s => generateProjectionData s months
    | None => []
    end in
  imap (fun i d =>
          {| name := month d;
             Current := actualNetWorth d;
             Simulated := option_map actualNetWorth (simulatedData !! i) |})
       currentData.

(** The conversions the reducer of [ExpenseBreakdown] can reach. *)
Variables (numberToString : num -> string) (functionToString : string -> string).

(** [(acc, t) => { acc[t.category] = (acc[t.category] || 0) + t.amount;
    return acc; }] *)
Definition addToCategory (acc : JsObject.Obj num) (t : Transaction num)
  : JsObject.Obj num :=
  JsObject.set (category t)
    (JsObject.orZeroPlus numberToString
       (JsObject.get functionToString (category t) acc) (amount t))
    acc.

Definition expensesByCategory (transactions : list (Transaction num))
  : JsObject.Obj num :=
  fold_left addToCategory (List.filter isExpense transactions) [].

(** The slices of the pie: one per key of the object. *)
Record Slice := mkSlice {
  slice_name : string;
  value : JsObject.Value num
}.

Definition expenseBreakdownData (transactions : list (Transaction num))
  : list Slice :=
  let expensesByCategory := expensesByCategory transactions in
  map (fun key =>
         mkSlice key (JsObject.get functionToString key expensesByCategory))
      (JsObject.keys expensesByCategory).

End Defs.
End Charts.

(** * Vocabulary of the statements *)

Section Vocabulary.
Context {num : Type} `{Number num}.
Open Scope js_scope.

(** The loop variables at the start of iteration [k]. *)
Definition varsAt (state : FinancialState num) (k : nat) : ProjectionVars num :=
  Nat.iter k (monthlyFlow (stateStats state)) (initialVars state).

(** The label of month [k]. *)
Definition monthLabel (k : nat) : string := ("M" ++ decimal (Z.of_nat k))%string.

(** The entry a projection starts with: the state's own cash, net worth
    and investment total. *)
Definition initialEntry (state : FinancialState num) : MonthlyData num :=
  {| month := "M0";
     actualSavings := cashBalance state;
     actualNetWorth := cashBalance state + sumOf balance (investments state)
                       - sumOf remainingBalance (loans state);
     investmentValue := sumOf balance (investments state) |}.

(** A loan the projection still amortizes. *)
Definition isActive (l : Loan num) : bool := remainingBalance l >? lit 0.

(** Debt service restricted to the loans with a positive remaining
    balance. *)
Definition activeDebtService (state : FinancialState num) : num :=
  sumOf monthlyPayment (List.filter isActive (loans state)).

Definition withLoans (state : FinancialState num) (ls : list (Loan num))
  : FinancialState num :=
  {| cashBalance := cashBalance state;
     monthlyIncome := monthlyIncome state;
     transactions := transactions state;
     creditCards := creditCards state;
     loans := ls;
     investments := investments state |}.

(** What a month does to one loan and to one investment; the cash the
    body receives does not enter the update of the element. *)
Definition loanAfter (l : Loan num) : Loan num := snd (loanStep (lit 0) l).

Definition investmentAfter (i : Investment num) : Investment num :=
  snd (investmentStep (lit 0) i).

(** The store while the loop of the reference-level rendering runs: the
    caller's objects [L0], [I0], [A0], then the copies the loop works on,
    whose current values are the loop variables of the value-level
    rendering, and the two arrays that refer to the copies. *)
Definition loopHeap (L0 : list (Loan num)) (I0 : list (Investment num))
           (A0 : list (list Heap.loc)) (nl ni : nat)
           (v : ProjectionVars num) : Heap.heap num :=
  Heap.mkHeap (L0 ++ activeLoans v) (I0 ++ activeInvestments v)
              (A0 ++ [seq (length L0) nl; seq (length I0) ni]).

End Vocabulary.

Section ExactVocabulary.
Open Scope Q_scope.

(** The relation between an investment before and after a month. *)
Definition investmentStepRel (i i' : Investment Q) : Prop :=
  inv_id i' = inv_id i /\
  inv_name i' = inv_name i /\
  annualReturnRate i' = annualReturnRate i /\
  monthlyContribution i' = monthlyContribution i /\
  balance i' ==
    (balance i + monthlyContribution i) * (1 + annualReturnRate i / 100 / 12).

(** The loans the step keeps within bounds: the balance between 0 and
    the principal, a rate that is not negative, and a payment that covers
    the month's interest. *)
Definition loanOK (l : Loan Q) : Prop :=
  0 <= remainingBalance l <= principal l /\
  0 <= interestRate l /\
  remainingBalance l * (interestRate l / 100 / 12) <= monthlyPayment l.

(** The relation between a loan before and after a month. *)
Definition loanStepRel (l l' : Loan Q) : Prop :=
  loan_id l' = loan_id l /\
  loan_name l' = loan_name l /\
  principal l' = principal l /\
  interestRate l' = interestRate l /\
  monthlyPayment l' = monthlyPayment l /\
  termMonths l' = termMonths l /\
  (0 < remainingBalance l ->
   remainingBalance l' ==
     Qmax 0 (remainingBalance l
             - (monthlyPayment l
                - remainingBalance l * (interestRate l / 100 / 12)))) /\
  (remainingBalance l <= 0 -> l' = l).

End ExactVocabulary.

(** ** Vocabulary of the monthly step *)

Section StepVocabulary.
Context {num : Type} `{Number num}.
Open Scope js_scope.

(** [max(0, x)] the way the loan step takes it: [if (x < 0) x = 0]. *)
Definition atLeastZero (x : num) : num := if x <? lit 0 then lit 0 else x.

(** The interest of the month, on the balance the loan starts the month
    with. *)
Definition monthInterest (l : Loan num) : num :=
  remainingBalance l * (interestRate l / lit 100 / lit 12).

(** What a month makes of a loan, in the arithmetic of the program: a
    loan with a positive balance gets the balance less the principal part
    of the payment, never below 0; any other loan is left alone. *)
Definition loanStepsTo (l l' : Loan num) : Prop :=
  if isActive l
  then l' = set_remainingBalance l
              (atLeastZero (remainingBalance l
                            - (monthlyPayment l - monthInterest l)))
  else l' = l.

(** What a month makes of an investment, in the arithmetic of the
    program: the contribution is added first, the growth is taken on the
    sum. *)
Definition investmentStepsTo (i i' : Investment num) : Prop :=
  let b := balance i + monthlyContribution i in
  i' = set_balance i (b + b * (annualReturnRate i / lit 100 / lit 12)).

(** Debiting [f x] for each [x], first to last. *)
Definition debit {A : Type} (f : A -> num) (xs : list A) (cash : num) : num :=
  fold_left (fun c x => c - f x) xs cash.

(** The cash month [k] of a projection ends with when it starts with
    [cash]: income and cashback in, expenses out, then the payments of the
    loans with a positive balance, then the contributions of all the
    investments. *)
Definition cashAfterMonth (state : FinancialState num) (k : nat) (cash : num)
  : num :=
  let v := varsAt state k in
  debit monthlyContribution (activeInvestments v)
    (debit monthlyPayment (List.filter isActive (activeLoans v))
       (cashAfterFlows (stateStats state) cash)).

(** The emergency-fund figures in the words of the specification: the
    burn counts the expenses and the debt service of the loans with a
    positive remaining balance; the ratio is 0 when the burn is 0. *)
Definition spec_totalMonthlyBurn (state : FinancialState num) : num :=
  sumOf amount (List.filter isExpense (transactions state))
  + activeDebtService state.

Definition spec_emergencyRatio (state : FinancialState num) : num :=
  if spec_totalMonthlyBurn state === lit 0 then lit 0
  else cashBalance state / spec_totalMonthlyBurn state.

(** A category that is not the name of a property of
    [Object.prototype]. *)
Definition ordinaryKey (key : string) : bool :=
  negb (existsb (String.eqb key) JsObject.Object_prototype).

(** The number a slice shows (0 for a value that is not a number). *)
Definition numberOf (v : JsObject.Value num) : num :=
  match v with
  | JsObject.JsNumber n => n
  | _ => lit 0
  end.

End StepVocabulary.

(** ** Sample states *)

(** [INITIAL_STATE] of App.tsx, over exact rationals. *)
Definition INITIAL_STATE : FinancialState Q :=
  ({| cashBalance := 15400;
     monthlyIncome := 6200;
     transactions :=
       [ mkTransaction "1" "2023-10-01" "Tech Corp Salary" 3100 "Income" income;
         mkTransaction "2" "2023-10-02" "Whole Foods Market" 145.20 "Groceries" expense;
         mkTransaction "3" "2023-10-05" "Shell Station" 45.00 "Transport" expense;
         mkTransaction "4" "2023-10-08" "Netflix Subscription" 15.99 "Entertainment" expense;
         mkTransaction "5" "2023-10-10" "City Utilities" 120.50 "Utilities" expense;
         mkTransaction "6" "2023-10-15" "Tech Corp Salary" 3100 "Income" income;
         mkTransaction "7" "2023-10-16" "Favorite Bistro" 85.00 "Dining" expense;
         mkTransaction "8" "2023-10-20" "Amazon Purchase" 65.99 "Shopping" expense ];
     creditCards := [ mkCreditCard "c1" "Sapphire Preferred" 1.5 95 18.24 ];
     loans := [ mkLoan "l1" "Student Loan" 25000 18400 4.5 260 120 ];
     investments := [ mkInvestment "i1" "401(k)" 12500 6.5 200 ] |})%Q.

(** [INITIAL_STATE] once its student loan is paid off. *)
Definition PAID_OFF_STATE : FinancialState Q :=
  withLoans INITIAL_STATE
            [ mkLoan "l1" "Student Loan" 25000 0 4.5 260 120 ]%Q.

(** A state whose single loan has a payment below the month's interest:
    1000 at 12% a year accrues 10 a month, the payment is 5. *)
Definition UNDERPAID_STATE : FinancialState Q :=
  ({| cashBalance := 0;
      monthlyIncome := 0;
      transactions := [];
      creditCards := [];
      loans := [ mkLoan "l1" "Bridge Loan" 1000 1000 12 5 60 ];
      investments := [] |})%Q.

(** A state whose single loan has a payment below the month's interest
    and a balance far below its principal: 100 of 1000 at 12% a year
    accrues 1 a month, the payment is 0.5. *)
Definition HEADROOM_STATE : FinancialState Q :=
  ({| cashBalance := 0;
      monthlyIncome := 0;
      transactions := [];
      creditCards := [];
      loans := [ mkLoan "l1" "Bridge Loan" 1000 100 12 0.5 60 ];
      investments := [] |})%Q.

(** A state whose single loan is paid off and still carries its monthly
    payment of 500, next to expenses of 500 and 3000 of cash. *)
Definition IDLE_LOAN_STATE : FinancialState Q :=
  ({| cashBalance := 3000;
      monthlyIncome := 4000;
      transactions :=
        [ mkTransaction "1" "2023-10-01" "Rent" 500 "General" expense ];
      creditCards := [];
      loans := [ mkLoan "l1" "Car Loan" 10000 0 5 500 60 ];
      investments := [] |})%Q.

(** A store holding the objects of [INITIAL_STATE]: one loan, one
    investment, and the two arrays that refer to them. *)
Definition INITIAL_HEAP : Heap.heap Q :=
  Heap.mkHeap (loans INITIAL_STATE) (investments INITIAL_STATE) [[0%nat]; [0%nat]].

Definition INITIAL_STATE_OBJ : Heap.StateObj Q :=
  Heap.mkStateObj (cashBalance INITIAL_STATE) (monthlyIncome INITIAL_STATE)
                  (transactions INITIAL_STATE) (creditCards INITIAL_STATE)
                  0%nat 1%nat.

(** Sample values over binary64. *)
Module F64Samples.
Import PrimFloat.

(** The loan and the investment of [INITIAL_STATE], no transactions and
    no cards (every literal is exactly representable). *)
Definition BARE_STATE : FinancialState float :=
  {| cashBalance := 15400%float;
     monthlyIncome := 6200%float;
     transactions := [];
     creditCards := [];
     loans := [ mkLoan "l1" "Student Loan" 25000%float 18400%float 4.5%float
                       260%float 120%float ];
     investments := [ mkInvestment "i1" "401(k)" 12500%float 6.5%float
                                   200%float ] |}.

(** [BARE_STATE] after [addInvestment] with a contribution of 200 and a
    return of 7: the new investment, the second one, starts at 0. *)
Definition NEW_INVESTMENT_STATE : FinancialState float :=
  SimulationActions.addInvestment 0 200%float 7%float BARE_STATE.

(** The result of the built-in [toFixed] at the one input of an example. *)
Definition toFixed_is (text : string) : float -> nat -> string :=
  fun _ _ => text.

End F64Samples.

(** ** Vocabulary of the further properties *)

Section FlowVocabulary.
Open Scope Q_scope.

(** The net of the flows that do not depend on the month. *)
Definition netFlow (state : FinancialState Q) : Q :=
  statMonthlyIncome (stateStats state) + statMonthlyCashback (stateStats state)
  - statMonthlyExpenses (stateStats state).

(** The payments debited in month [k]: those of the loans still active. *)
Definition paymentsAt (state : FinancialState Q) (k : nat) : Q :=
  sumOf monthlyPayment (List.filter isActive (activeLoans (varsAt state k))).

(** An investment with a balance, a return rate and a contribution that
    are not negative. *)
Definition investmentOK (i : Investment Q) : Prop :=
  0 <= balance i /\ 0 <= annualReturnRate i /\ 0 <= monthlyContribution i.

(** The score before clamping and rounding. *)
Definition rawScore (state : FinancialState Q) : Q :=
  (if Qlt_bool 30 (CreditCoach.dti state)
   then 750 - (CreditCoach.dti state - 30) else 750)
  - CreditScore.lengthOf (loans state) * 5
  - CreditScore.lengthOf (creditCards state) * 2.

End FlowVocabulary.

(** [INITIAL_STATE] with a second card, of 3% cashback. *)
Definition BETTER_CARD_STATE : FinancialState Q :=
  SimulationActions.addCreditCard (fun _ => "3") 0 3%Q INITIAL_STATE.

(** A state whose single investment receives no contributions. *)
Definition LUMP_SUM_STATE : FinancialState Q :=
  ({| cashBalance := 0;
      monthlyIncome := 0;
      transactions := [];
      creditCards := [];
      loans := [];
      investments := [ mkInvestment "i1" "Index Fund" 10000 6 0 ] |})%Q.

(** * Properties *)

(** ** The projection loop in closed form *)

Section EngineFacts.
Context {num : Type} `{Number num}.
Open Scope js_scope.

Lemma projectionLoop_closed (stats : BaseStats num) (months : Z) :
  forall (fuel : nat) (i : Z) (v : ProjectionVars num)
         (data : list (MonthlyData num)),
    (months + 1 - i <= Z.of_nat fuel)%Z ->
    projectionLoop fuel stats months i v data =
    data ++ map (fun k => snapshot (i + Z.of_nat k)%Z
                                   (Nat.iter k (monthlyFlow stats) v))
                (seq 0 (Z.to_nat (months + 1 - i))).
Proof.
  induction fuel as [|fuel IH]; intros i v data Hfuel; simpl.
  - replace (Z.to_nat (months + 1 - i)) with 0%nat by lia.
    simpl. now rewrite app_nil_r.
  - destruct (Z.leb_spec i months) as [Hle|Hgt].
    + replace (Z.to_nat (months + 1 - i))
        with (S (Z.to_nat (months + 1 - (i + 1)))) by lia.
      cbn [seq map]. rewrite Z.add_0_r. cbn [Nat.iter nat_rect].
      destruct (Z.eqb_spec i months) as [->|Hne].
      * replace (Z.to_nat (months + 1 - (months + 1))) with 0%nat by lia.
        reflexivity.
      * rewrite IH by lia. rewrite <- app_assoc. cbn [app].
        do 2 f_equal. rewrite <- seq_shift, map_map.
        apply map_ext; intros k.
        rewrite Nat.iter_succ_r. f_equal. lia.
    + replace (Z.to_nat (months + 1 - i)) with 0%nat by lia.
      simpl. now rewrite app_nil_r.
Qed.

Lemma lookup_map {A B : Type} (f : A -> B) (l : list A) (k : nat) :
  map f l !! k = option_map f (l !! k).
Proof.
  revert k; induction l as [|x l IH]; intros [|k]; simpl; auto.
Qed.

(** The sequence returned for [months]: entry [k] is the snapshot of the
    variables after [k] months of flow. *)
Lemma generateProjectionData_closed (state : FinancialState num) (months : Z) :
  generateProjectionData state months =
  map (fun k => snapshot (Z.of_nat k) (varsAt state k))
      (seq 0 (Z.to_nat (months + 1))).
Proof.
  unfold generateProjectionData.
  rewrite projectionLoop_closed by lia.
  rewrite Z.sub_0_r. reflexivity.
Qed.

(** The iteration bound of [generateProjectionData] is never the reason
    the loop stops: any larger bound gives the same sequence. *)
Lemma projectionLoop_fuel (state : FinancialState num) (months : Z)
      (extra : nat) :
  projectionLoop (S (Z.to_nat months) + extra) (stateStats state) months 0%Z
                 (initialVars state) [] =
  generateProjectionData state months.
Proof.
  unfold generateProjectionData.
  rewrite !projectionLoop_closed by lia. reflexivity.
Qed.

Lemma generateProjectionData_length (state : FinancialState num) (months : Z) :
  length (generateProjectionData state months) = Z.to_nat (months + 1).
Proof.
  rewrite generateProjectionData_closed, length_map, length_seq. reflexivity.
Qed.

Lemma generateProjectionData_lookup (state : FinancialState num) (months : Z)
      (k : nat) :
  (Z.of_nat k <= months)%Z ->
  generateProjectionData state months !! k =
  Some (snapshot (Z.of_nat k) (varsAt state k)).
Proof.
  intros Hk. rewrite generateProjectionData_closed.
  rewrite lookup_map, lookup_seq_lt by lia. reflexivity.
Qed.

End EngineFacts.

(** ** Shape of the projection *)

Section ProjectionShape.
Context {num : Type} `{Number num}.
Open Scope js_scope.

Lemma generateProjectionData_months (state : FinancialState num) (months : Z) :
  map month (generateProjectionData state months) =
  map monthLabel (seq 0 (Z.to_nat (months + 1))).
Proof.
  rewrite generateProjectionData_closed, map_map. reflexivity.
Qed.

(** C1. For every state and every horizon [h >= 0] the projection has
    exactly [h + 1] entries, labelled M0, M1, ..., Mh in this order; its
    first entry records the cash balance, the net worth (cash plus the
    investment balances minus the remaining loan balances) and the
    investment total of the state itself, before any monthly flow; for
    [h = 0] the projection is that single entry. *)
Theorem C1_projection_shape (state : FinancialState num) (h : Z) :
  (0 <= h)%Z ->
  let data := generateProjectionData state h in
  Z.of_nat (length data) = (h + 1)%Z /\
  data !! 0%nat = Some (initialEntry state) /\
  map month data = map monthLabel (seq 0 (S (Z.to_nat h))) /\
  (h = 0%Z -> data = [initialEntry state]).
Proof.
  intros Hh data. subst data. repeat split.
  - rewrite generateProjectionData_length. lia.
  - rewrite generateProjectionData_lookup by lia. reflexivity.
  - rewrite generateProjectionData_months. do 2 f_equal. lia.
  - intros ->. reflexivity.
Qed.

(** C8 (as the code has it). A negative horizon raises nothing: the loop
    body never runs and the call returns the empty sequence. *)
Theorem C8_negative_horizon_returns_empty (state : FinancialState num) (h : Z) :
  (h < 0)%Z ->
  call_generateProjectionData state h = Returns [].
Proof.
  intros Hh. unfold call_generateProjectionData. f_equal.
  rewrite generateProjectionData_closed.
  replace (Z.to_nat (h + 1)) with 0%nat by lia. reflexivity.
Qed.

End ProjectionShape.

Lemma C1_projection_shape_witness :
  (0 <= 12)%Z /\
  Z.of_nat (length (generateProjectionData INITIAL_STATE 12)) = 13%Z /\
  generateProjectionData INITIAL_STATE 12 !! 0%nat
    = Some (initialEntry INITIAL_STATE).
Proof.
  split; [lia|].
  pose proof (C1_projection_shape INITIAL_STATE 12 ltac:(lia)) as (Hl & H0 & _).
  split; [exact Hl | exact H0].
Defined.

Lemma C8_negative_horizon_witness :
  (-1 < 0)%Z /\ call_generateProjectionData INITIAL_STATE (-1) = Returns [].
Proof.
  split; [lia | apply C8_negative_horizon_returns_empty; lia].
Defined.

(** C8 (as stated) fails: for the horizon -1 the call on [INITIAL_STATE]
    does not throw [InvalidProjectionHorizon]; it returns an empty
    sequence. *)
Lemma C8_negative_horizon_counterexample :
  call_generateProjectionData INITIAL_STATE (-1)
    <> Throws InvalidProjectionHorizon /\
  call_generateProjectionData INITIAL_STATE (-1) = Returns [].
Proof.
  split; [discriminate | reflexivity].
Qed.

(** ** Adding a simulated loan *)

Section AddLoan.
Context {num : Type} `{Number num}.
Open Scope js_scope.
Variable toFixed : num -> nat -> string.

(** C10. [addLoan] appends exactly one loan, whose principal and
    remaining balance are the entered amount and whose term is 60 months,
    credits the amount to the cash balance at once, and leaves the
    transactions, the credit cards and the investments as they were.
    This holds for every amount and rate, whatever the payment expression
    evaluates to. *)
Theorem C10_addLoan_effect (now : Z) (A rate : num)
        (simState : FinancialState num) :
  let s' := SimulationControl.addLoan toFixed now A rate simState in
  (exists loan,
      loans s' = loans simState ++ [loan] /\
      principal loan = A /\
      remainingBalance loan = A /\
      termMonths loan = lit 60) /\
  length (loans s') = S (length (loans simState)) /\
  cashBalance s' = cashBalance simState + A /\
  transactions s' = transactions simState /\
  creditCards s' = creditCards simState /\
  investments s' = investments simState.
Proof.
  cbn zeta. unfold SimulationControl.addLoan. cbn.
  repeat split.
  - eexists. repeat split.
  - rewrite length_app. cbn. lia.
Qed.

(** C7 (as the code has it). [addLoan] validates nothing: for every
    amount and rate, also non-positive or negative ones, the call returns
    normally, with a state that holds one more loan whose [monthlyPayment]
    is the value of the payment expression for the fixed term of 60. *)
Theorem C7_addLoan_never_rejects (now : Z) (A rate : num)
        (simState : FinancialState num) :
  exists s' loan,
    call_addLoan toFixed now A rate simState = Returns s' /\
    loans s' = loans simState ++ [loan] /\
    interestRate loan = rate /\
    principal loan = A /\
    monthlyPayment loan
      = SimulationControl.annuityPayment A (rate / lit 100 / lit 12) 60.
Proof.
  do 2 eexists. repeat split.
Qed.

End AddLoan.


(** Evaluations on binary64. *)
Module F64Facts.
Import PrimFloat.
Import F64Samples.

(** C7 (as stated) fails: with the amount -1000 and the rate 5.5 the call
    does not throw [InvalidLoanParameters]; it returns a state with a
    second loan, of principal -1000 and with a negative number as its
    monthly payment. *)
Lemma C7_addLoan_counterexample :
  let call := call_addLoan (toFixed_is "-1.0") 0 (-1000)%float 5.5%float
                           BARE_STATE in
  call <> Throws InvalidLoanParameters /\
  exists s', call = Returns s' /\
    map loan_name (loans s') = ["Student Loan"; "Simulated Loan ($-1.0k)"] /\
    map principal (loans s') = [25000%float; (-1000)%float] /\
    map (fun l => is_nan (monthlyPayment l)) (loans s') = [false; false] /\
    map (fun l => ltb (monthlyPayment l) 0%float) (loans s') = [false; true].
Proof.
  split; [discriminate|].
  eexists. split; [reflexivity|]. vm_compute. repeat split.
Qed.

(** C6. At the rate 0 the payment expression of [addLoan] is 0/0: for the
    amount 12000 the new loan's monthly payment is NaN, not
    12000/60 = 200, and the projection of the resulting state has NaN as
    its cash from month 1 on. *)
Theorem C6_zero_rate_payment_is_nan :
  let s' := SimulationControl.addLoan (toFixed_is "12.0") 0 12000%float 0%float
                                      BARE_STATE in
  SimulationControl.annuityPayment 12000%float (0 / 100 / 12)%float 60
    = (0 / 0)%float /\
  map (fun l => is_nan (monthlyPayment l)) (loans s') = [false; true] /\
  map (fun l => eqb (monthlyPayment l) 200%float) (loans s') = [false; false] /\
  map (fun d => is_nan (actualSavings d)) (generateProjectionData s' 2)
    = [false; true; true].
Proof.
  vm_compute. repeat split.
Qed.

(** C4 (as stated) fails on the numbers the program runs on: the
    investment [addInvestment] creates with a contribution of 200 and a
    return of 7 starts at 0; after one month its balance is
    200 + 200 x (7/100/12) = 201.16666666666666, which is not
    (0 + 200) x (1 + 7/100/12) = 201.16666666666669. *)
Lemma C4_investment_step_counterexample :
  exists i i',
    activeInvestments (varsAt NEW_INVESTMENT_STATE 0) !! 1%nat = Some i /\
    activeInvestments (varsAt NEW_INVESTMENT_STATE 1) !! 1%nat = Some i' /\
    balance i = 0%float /\
    monthlyContribution i = 200%float /\
    annualReturnRate i = 7%float /\
    balance i' = (200 + 200 * (7 / 100 / 12))%float /\
    balance i'
    <> ((balance i + monthlyContribution i)
        * (1 + annualReturnRate i / 100 / 12))%float /\
    ltb (balance i')
        ((balance i + monthlyContribution i)
         * (1 + annualReturnRate i / 100 / 12))%float = true.
Proof.
  eexists _, _. split; [reflexivity|]. split; [reflexivity|].
  vm_compute. repeat split. discriminate.
Qed.

(** The same facts as the exact ones below, evaluated on the numbers the
    program runs on. *)

#[local] Set Warnings "-inexact-float".

(** One month on [BARE_STATE]: cash 15400 + 6200 - 260 - 200, the loan
    down by the payment less 69 of interest, the investment grown on
    12700. *)
Example bare_state_one_month :
  let v := varsAt BARE_STATE 1 in
  map actualSavings (generateProjectionData BARE_STATE 1)
    = [15400%float; 21140%float] /\
  map actualNetWorth (generateProjectionData BARE_STATE 0) = [9500%float] /\
  map (fun l => (ltb 18208.99%float (remainingBalance l),
                 ltb (remainingBalance l) 18209.01%float)) (activeLoans v)
    = [(true, true)] /\
  map (fun i => (ltb 12768.79%float (balance i),
                 ltb (balance i) 12768.80%float)) (activeInvestments v)
    = [(true, true)].
Proof.
  vm_compute. repeat split.
Qed.

(** A payment of 5 against 10 of monthly interest: the balance passes
    the principal. *)
Example underpaid_loan_grows :
  let l := mkLoan "l1" "Bridge Loan" 1000%float 1000%float 12%float 5%float
                  60%float in
  ltb (principal (loanAfter l)) (remainingBalance (loanAfter l)) = true.
Proof.
  vm_compute. reflexivity.
Qed.

(** The bounds of the loan step need exact arithmetic.  The loan
    [addLoan] builds from the amount 1e308 at the rate 2400 has an infinite
    payment; it starts within 0 <= remainingBalance <= principal with a
    payment that covers the month's interest, itself infinite, and after
    one month its balance is NaN. *)
Example overflowing_loan_balance_is_nan :
  let s' := SimulationControl.addLoan (toFixed_is "1e+305") 0 1e308%float
                                      2400%float BARE_STATE in
  map (fun l => (leb 0%float (remainingBalance l),
                 leb (remainingBalance l) (principal l),
                 leb 0%float (interestRate l),
                 leb (monthInterest l) (monthlyPayment l))) (loans s')
    = [(true, true, true, true); (true, true, true, true)] /\
  map (fun l => is_nan (remainingBalance l)) (activeLoans (varsAt s' 1))
    = [false; true].
Proof.
  vm_compute. repeat split.
Qed.

(** The band boundaries at 3. *)
Example emergency_status_at_three :
  RiskAnalysis.label (RiskAnalysis.getEmergencyStatus 3.0%float) = "Good" /\
  RiskAnalysis.label (RiskAnalysis.getEmergencyStatus 2.999%float) = "At Risk" /\
  RiskAnalysis.label (RiskAnalysis.getEmergencyStatus nan) = "Critical".
Proof.
  vm_compute. repeat split.
Qed.

End F64Facts.

(** ** Monthly debt payments *)

Section DebtPayments.
Context {num : Type} `{Number num}.
Open Scope js_scope.

Lemma sumOf_snoc {A : Type} (f : A -> num) (xs : list A) (x : A) :
  sumOf f (xs ++ [x]) = sumOf f xs + f x.
Proof.
  unfold sumOf. rewrite fold_left_app. reflexivity.
Qed.

Lemma filter_all {A : Type} (f : A -> bool) (xs : list A) :
  Forall (fun x => f x = true) xs -> List.filter f xs = xs.
Proof.
  induction 1 as [|x xs Hx _ IH]; simpl; [reflexivity|].
  now rewrite Hx, IH.
Qed.

(** C5 (as the code has it). The debt-payment figure of the risk radar,
    of the dashboard and of the credit coach is the sum of
    [monthlyPayment] over all the loans of the state: it is 0 without
    loans, and one more loan adds its monthly payment whatever its
    remaining balance.  It is the sum over the loans with a positive
    remaining balance when every loan of the state has one. *)
Theorem C5_debt_payments_over_all_loans (state : FinancialState num) :
  App.totalMonthlyDebtPayments state = RiskAnalysis.debtPayments state /\
  CreditCoach.debtPayments state = RiskAnalysis.debtPayments state /\
  RiskAnalysis.debtPayments (withLoans state []) = lit 0 /\
  (forall ls l,
      RiskAnalysis.debtPayments (withLoans state (ls ++ [l]))
      = RiskAnalysis.debtPayments (withLoans state ls) + monthlyPayment l) /\
  (Forall (fun l => isActive l = true) (loans state) ->
   RiskAnalysis.debtPayments state = activeDebtService state).
Proof.
  repeat split.
  - intros ls l. unfold RiskAnalysis.debtPayments. cbn [loans withLoans].
    apply sumOf_snoc.
  - intros Hall. unfold activeDebtService, RiskAnalysis.debtPayments.
    now rewrite filter_all.
Qed.

End DebtPayments.

Lemma C5_debt_payments_witness :
  Forall (fun l => isActive l = true) (loans INITIAL_STATE) /\
  RiskAnalysis.debtPayments INITIAL_STATE = activeDebtService INITIAL_STATE.
Proof.
  assert (Hall : Forall (fun l => isActive l = true) (loans INITIAL_STATE))
    by (repeat constructor).
  split; [exact Hall|].
  exact (proj2 (proj2 (proj2 (proj2
           (C5_debt_payments_over_all_loans INITIAL_STATE)))) Hall).
Defined.

(** C5 (as stated) fails: with the single loan paid off, the three
    figures are still its monthly payment 260, while the payments of the
    loans with a positive remaining balance add up to 0. *)
Lemma C5_debt_payments_counterexample :
  (RiskAnalysis.debtPayments PAID_OFF_STATE == 260)%Q /\
  (App.totalMonthlyDebtPayments PAID_OFF_STATE == 260)%Q /\
  (CreditCoach.debtPayments PAID_OFF_STATE == 260)%Q /\
  (activeDebtService PAID_OFF_STATE == 0)%Q /\
  ~ (RiskAnalysis.debtPayments PAID_OFF_STATE
     == activeDebtService PAID_OFF_STATE)%Q.
Proof.
  repeat split; try reflexivity. discriminate.
Qed.

(** ** One month of flow, element by element *)

Section MonthlyFlowFacts.
Context {num : Type} `{Number num}.
Open Scope js_scope.

Lemma loanStep_snd (cash : num) (l : Loan num) :
  snd (loanStep cash l) = loanAfter l.
Proof.
  unfold loanAfter, loanStep.
  destruct (remainingBalance l >? lit 0); [|reflexivity].
  cbn. destruct (_ <? _); reflexivity.
Qed.

Lemma investmentStep_snd (cash : num) (i : Investment num) :
  snd (investmentStep cash i) = investmentAfter i.
Proof. reflexivity. Qed.

Lemma forEach_snd {A : Type} (body : num -> A -> num * A) (after : A -> A) :
  (forall cash x, snd (body cash x) = after x) ->
  forall cash xs, snd (forEach body cash xs) = map after xs.
Proof.
  intros Hbody cash xs. revert cash.
  induction xs as [|x xs IH]; intros cash; simpl; [reflexivity|].
  specialize (Hbody cash x). destruct (body cash x) as [cash1 x'].
  specialize (IH cash1). destruct (forEach body cash1 xs) as [cash2 xs'].
  simpl in *. now subst.
Qed.

Lemma forEach_fst_cons {A : Type} (body : num -> A -> num * A)
      (cash : num) (x : A) (xs : list A) :
  fst (forEach body cash (x :: xs)) = fst (forEach body (fst (body cash x)) xs).
Proof.
  simpl. destruct (body cash x) as [cash1 x']. simpl.
  destruct (forEach body cash1 xs). reflexivity.
Qed.

Lemma monthlyFlow_activeLoans (stats : BaseStats num) (v : ProjectionVars num) :
  activeLoans (monthlyFlow stats v) = map loanAfter (activeLoans v).
Proof.
  unfold monthlyFlow.
  rewrite <- (forEach_snd loanStep loanAfter loanStep_snd
                (cashAfterFlows stats (currentCash v)) (activeLoans v)).
  destruct (forEach loanStep _ (activeLoans v)) as [cash1 ls].
  destruct (forEach investmentStep cash1 _). reflexivity.
Qed.

Lemma monthlyFlow_activeInvestments (stats : BaseStats num)
      (v : ProjectionVars num) :
  activeInvestments (monthlyFlow stats v)
  = map investmentAfter (activeInvestments v).
Proof.
  unfold monthlyFlow.
  destruct (forEach loanStep _ (activeLoans v)) as [cash1 ls].
  rewrite <- (forEach_snd investmentStep investmentAfter investmentStep_snd
                cash1 (activeInvestments v)).
  destruct (forEach investmentStep cash1 _). reflexivity.
Qed.

(** The cash a month ends with: the flows, then the loans first to last,
    then the investments first to last. *)
Lemma monthlyFlow_currentCash (stats : BaseStats num) (v : ProjectionVars num) :
  currentCash (monthlyFlow stats v)
  = fst (forEach investmentStep
           (fst (forEach loanStep (cashAfterFlows stats (currentCash v))
                         (activeLoans v)))
           (activeInvestments v)).
Proof.
  unfold monthlyFlow.
  destruct (forEach loanStep _ (activeLoans v)) as [cash1 ls]. simpl.
  destruct (forEach investmentStep cash1 _). reflexivity.
Qed.

Lemma varsAt_S (state : FinancialState num) (k : nat) :
  varsAt state (S k) = monthlyFlow (stateStats state) (varsAt state k).
Proof. reflexivity. Qed.

Lemma activeLoans_varsAt (state : FinancialState num) (k : nat) :
  activeLoans (varsAt state k) = map (Nat.iter k loanAfter) (loans state).
Proof.
  induction k as [|k IH].
  - cbn. now rewrite map_id.
  - rewrite varsAt_S, monthlyFlow_activeLoans, IH, map_map. reflexivity.
Qed.

Lemma activeInvestments_varsAt (state : FinancialState num) (k : nat) :
  activeInvestments (varsAt state k)
  = map (Nat.iter k investmentAfter) (investments state).
Proof.
  induction k as [|k IH].
  - cbn. now rewrite map_id.
  - rewrite varsAt_S, monthlyFlow_activeInvestments, IH, map_map. reflexivity.
Qed.

(** The loan and the investment a month leaves, in the program's own
    arithmetic. *)
Lemma loanAfter_stepsTo (l : Loan num) : loanStepsTo l (loanAfter l).
Proof.
  unfold loanStepsTo, loanAfter, loanStep, isActive, atLeastZero, monthInterest.
  destruct (remainingBalance l >? lit 0); [|reflexivity].
  cbn. destruct (_ <? _); reflexivity.
Qed.

Lemma investmentAfter_stepsTo (i : Investment num) :
  investmentStepsTo i (investmentAfter i).
Proof. reflexivity. Qed.

Lemma Forall2_map_after {A : Type} (R : A -> A -> Prop) (f : A -> A)
      (xs : list A) :
  (forall x, R x (f x)) -> Forall2 R xs (map f xs).
Proof.
  intros Hf. induction xs; simpl; constructor; auto.
Qed.

(** The cash the two loops leave: the payments of the loans with a
    positive balance and the contributions of all the investments are
    taken off, one after the other. *)
Lemma forEach_loanStep_debit (cash : num) (ls : list (Loan num)) :
  fst (forEach loanStep cash ls)
  = debit monthlyPayment (List.filter isActive ls) cash.
Proof.
  revert cash. induction ls as [|l ls IH]; intros cash; [reflexivity|].
  rewrite forEach_fst_cons, IH. cbn [List.filter].
  unfold loanStep, isActive.
  destruct (remainingBalance l >? lit 0); reflexivity.
Qed.

Lemma forEach_investmentStep_debit (cash : num) (ivs : list (Investment num)) :
  fst (forEach investmentStep cash ivs) = debit monthlyContribution ivs cash.
Proof.
  revert cash. induction ivs as [|i ivs IH]; intros cash; [reflexivity|].
  rewrite forEach_fst_cons, IH. reflexivity.
Qed.

Lemma currentCash_cashAfterMonth (state : FinancialState num) (k : nat) :
  currentCash (varsAt state (S k))
  = cashAfterMonth state k (currentCash (varsAt state k)).
Proof.
  rewrite varsAt_S, monthlyFlow_currentCash.
  rewrite forEach_investmentStep_debit, forEach_loanStep_debit. reflexivity.
Qed.

(** Two consecutive entries of a projection and the cash they record. *)
Lemma consecutive_entries (state : FinancialState num) (h : Z) (k : nat) :
  (Z.of_nat (S k) <= h)%Z ->
  exists e1 e2,
    generateProjectionData state h !! k = Some e1 /\
    generateProjectionData state h !! S k = Some e2 /\
    actualSavings e1 = currentCash (varsAt state k) /\
    actualSavings e2 = currentCash (varsAt state (S k)).
Proof.
  intros Hk. eexists _, _.
  split; [apply generateProjectionData_lookup; lia|].
  split; [apply generateProjectionData_lookup; lia|].
  split; reflexivity.
Qed.

End MonthlyFlowFacts.

(** ** Exact arithmetic *)

Section ExactArithmetic.
Open Scope Q_scope.

Lemma monthly_rate (rate : Q) : rate / 100 / 12 == rate * (1 # 1200).
Proof. field. Qed.

Lemma Qlt_bool_iff (a b : Q) : Qlt_bool a b = true <-> a < b.
Proof.
  unfold Qlt_bool. rewrite negb_true_iff. split.
  - intros Hf. apply Qnot_le_lt. intros Hle.
    apply Qle_bool_iff in Hle. congruence.
  - intros Hlt. destruct (Qle_bool b a) eqn:E; [|reflexivity].
    apply Qle_bool_iff in E. lra.
Qed.

Lemma Qlt_bool_false (a b : Q) : Qlt_bool a b = false <-> b <= a.
Proof.
  unfold Qlt_bool. rewrite negb_false_iff. apply Qle_bool_iff.
Qed.

Lemma Qle_bool_false (a b : Q) : Qle_bool a b = false <-> b < a.
Proof.
  rewrite <- Qlt_bool_iff. unfold Qlt_bool.
  destruct (Qle_bool a b); simpl; intuition congruence.
Qed.

Lemma sumOf_acc {A : Type} (f : A -> Q) (xs : list A) (a0 : Q) :
  fold_left (fun acc x => acc + f x) xs a0 == a0 + sumOf f xs.
Proof.
  unfold sumOf. cbn. revert a0.
  induction xs as [|x xs IH]; intros a0; simpl; [ring|].
  rewrite (IH (a0 + f x)), (IH (0 + f x)). ring.
Qed.

Lemma sumOf_cons {A : Type} (f : A -> Q) (x : A) (xs : list A) :
  sumOf f (x :: xs) == f x + sumOf f xs.
Proof.
  unfold sumOf at 1. cbn. rewrite sumOf_acc. ring.
Qed.

(** *** Investments *)

Lemma investmentAfter_rel (i : Investment Q) :
  investmentStepRel i (investmentAfter i).
Proof.
  unfold investmentStepRel, investmentAfter, investmentStep. cbn.
  repeat split. unfold inject_Z. field.
Qed.

Lemma forEach_investmentStep_cash (cash : Q) (ivs : list (Investment Q)) :
  fst (forEach investmentStep cash ivs)
  == cash - sumOf monthlyContribution ivs.
Proof.
  revert cash. induction ivs as [|i ivs IH]; intros cash.
  - cbn. ring.
  - rewrite forEach_fst_cons, IH, sumOf_cons. cbn. ring.
Qed.

Lemma sumOf_map_ext {A : Type} (f : A -> Q) (g : A -> A) (xs : list A) :
  (forall x, f (g x) = f x) -> sumOf f (map g xs) = sumOf f xs.
Proof.
  intros Hfg. unfold sumOf. generalize (lit 0 : Q).
  induction xs as [|x xs IH]; intros a; cbn; [reflexivity|].
  now rewrite Hfg, IH.
Qed.

Lemma contribution_iter (i : Investment Q) (k : nat) :
  monthlyContribution (Nat.iter k investmentAfter i) = monthlyContribution i
  /\ annualReturnRate (Nat.iter k investmentAfter i) = annualReturnRate i.
Proof.
  induction k as [|k IH]; [split; reflexivity|].
  change (Nat.iter (S k) investmentAfter i)
    with (investmentAfter (Nat.iter k investmentAfter i)).
  exact IH.
Qed.

Lemma contributions_constant (state : FinancialState Q) (k : nat) :
  sumOf monthlyContribution (activeInvestments (varsAt state k))
  = App.monthlyInvContribution state.
Proof.
  rewrite activeInvestments_varsAt. unfold App.monthlyInvContribution.
  apply sumOf_map_ext. intros i. apply contribution_iter.
Qed.

(** *** Loans *)

Lemma loanAfter_rel (l : Loan Q) : loanStepRel l (loanAfter l).
Proof.
  unfold loanStepRel, loanAfter, loanStep. cbn. unfold inject_Z.
  destruct (Qlt_bool 0 (remainingBalance l)) eqn:Hpos; cbn.
  - apply Qlt_bool_iff in Hpos.
    match goal with |- context [Qlt_bool ?x 0] =>
      destruct (Qlt_bool x 0) eqn:Hneg end; cbn.
    + apply Qlt_bool_iff in Hneg.
      repeat split; try (intros; lra).
      intros _. rewrite Q.max_l; [reflexivity | lra].
    + apply Qlt_bool_false in Hneg.
      repeat split; try (intros; lra).
      intros _. rewrite Q.max_r; [reflexivity | lra].
  - apply Qlt_bool_false in Hpos.
    repeat split; intros; try reflexivity; lra.
Qed.

Lemma loanAfter_OK (l : Loan Q) : loanOK l -> loanOK (loanAfter l).
Proof.
  intros ((Hlo & Hhi) & Hrate & Hcover).
  destruct (loanAfter_rel l) as (_ & _ & Hp & Hr & Hm & _ & Hstep & Hskip).
  unfold loanOK. rewrite Hp, Hr, Hm.
  assert (Hk : 0 <= interestRate l / 100 / 12)
    by (rewrite monthly_rate; lra).
  destruct (Qlt_le_dec 0 (remainingBalance l)) as [Hpos|Hzero].
  - specialize (Hstep Hpos).
    set (x := remainingBalance l
              - (monthlyPayment l
                 - remainingBalance l * (interestRate l / 100 / 12))) in *.
    assert (Hx : x <= remainingBalance l) by (subst x; lra).
    assert (H0 : 0 <= remainingBalance (loanAfter l))
      by (rewrite Hstep; apply Q.le_max_l).
    assert (H1 : remainingBalance (loanAfter l) <= remainingBalance l)
      by (rewrite Hstep; apply Q.max_lub; lra).
    repeat split; try lra.
    apply Qle_trans with (remainingBalance l * (interestRate l / 100 / 12));
      [|exact Hcover].
    apply Qmult_le_compat_r; assumption.
  - rewrite (Hskip Hzero). repeat split; assumption.
Qed.

(** Within 0 <= remainingBalance <= principal, a month keeps the balance
    at or above 0, and at or below the principal exactly when the balance
    plus the interest less the payment is. *)
Lemma loanAfter_bounds (l : Loan Q) :
  0 <= remainingBalance l <= principal l ->
  0 <= remainingBalance (loanAfter l) /\
  (remainingBalance (loanAfter l) <= principal (loanAfter l) <->
   remainingBalance l == 0 \/
   remainingBalance l + monthInterest l - monthlyPayment l <= principal l).
Proof.
  intros [Hlo Hhi].
  destruct (loanAfter_rel l) as (_ & _ & Hp & _ & _ & _ & Hstep & Hskip).
  rewrite Hp. unfold monthInterest. cbn [lit num_mul num_div Q_Number].
  unfold inject_Z.
  destruct (Qlt_le_dec 0 (remainingBalance l)) as [Hpos|Hz].
  - rewrite (Hstep Hpos).
    set (x := remainingBalance l
              - (monthlyPayment l
                 - remainingBalance l * (interestRate l / 100 / 12))).
    assert (Hx : x == remainingBalance l
                      + remainingBalance l * (interestRate l / 100 / 12)
                      - monthlyPayment l) by (subst x; ring).
    split; [apply Q.le_max_l|]. split.
    + intros Hle. right. pose proof (Q.le_max_r 0 x). lra.
    + intros [Hzero|Hle]; [lra|]. apply Q.max_lub; lra.
  - rewrite (Hskip Hz). split; [lra|]. split; [left|]; lra.
Qed.

Lemma forEach_loanStep_cash (cash : Q) (ls : list (Loan Q)) :
  fst (forEach loanStep cash ls)
  == cash - sumOf monthlyPayment (List.filter isActive ls).
Proof.
  revert cash. induction ls as [|l ls IH]; intros cash.
  - cbn. ring.
  - rewrite forEach_fst_cons, IH. cbn [List.filter].
    unfold loanStep, isActive.
    destruct (num_gt (remainingBalance l) (lit 0)).
    + rewrite sumOf_cons. cbn. ring.
    + cbn. ring.
Qed.

Lemma loans_stay_OK (state : FinancialState Q) (k : nat) :
  Forall loanOK (loans state) -> Forall loanOK (activeLoans (varsAt state k)).
Proof.
  intros Hok. induction k as [|k IH]; [exact Hok|].
  rewrite varsAt_S, monthlyFlow_activeLoans.
  apply List.Forall_forall. intros l' Hin.
  apply in_map_iff in Hin as (l & <- & Hin).
  apply loanAfter_OK. rewrite List.Forall_forall in IH. now apply IH.
Qed.

(** When no loan has a positive balance, the month leaves the loans as
    they are and debits nothing for them. *)
Lemma loans_all_paid_off (ls : list (Loan Q)) :
  Forall (fun l => remainingBalance l <= 0) ls ->
  map loanAfter ls = ls /\
  sumOf monthlyPayment (List.filter isActive ls) == 0.
Proof.
  induction 1 as [|l ls Hl _ [IHmap IHsum]]; [split; reflexivity|].
  destruct (loanAfter_rel l) as (_ & _ & _ & _ & _ & _ & _ & Hskip).
  cbn [map List.filter]. rewrite IHmap, (Hskip Hl).
  split; [reflexivity|].
  unfold isActive at 1. cbn [num_gt lit Q_Number].
  assert (Hf : Qlt_bool (inject_Z 0) (remainingBalance l) = false)
    by (apply Qlt_bool_false; exact Hl).
  now rewrite Hf.
Qed.

(** *** The cash of a month *)

Lemma currentCash_step (state : FinancialState Q) (k : nat) :
  currentCash (varsAt state (S k))
  == currentCash (varsAt state k) + netFlow state
     - paymentsAt state k - App.monthlyInvContribution state.
Proof.
  rewrite varsAt_S, monthlyFlow_currentCash.
  rewrite forEach_investmentStep_cash, forEach_loanStep_cash.
  rewrite contributions_constant.
  unfold cashAfterFlows, netFlow, paymentsAt. cbn. ring.
Qed.

(** *** The two steps within a projection *)

(** C4 (amended). In every simulated month and for every investment:
    in any number representation the contribution is added first and the
    new balance is b + b x (annualReturnRate/100/12), with b the balance
    after the contribution, the other fields staying as they are; in exact
    arithmetic this is (old balance + contribution) x
    (1 + annualReturnRate/100/12).  From one entry of the projection to
    the next, the cash is debited the contribution of every investment,
    after the flows and the loan payments of the month; in exact
    arithmetic it goes down by the sum of the contributions, which is the
    same every month. *)
Theorem C4_investment_step :
  (forall (num : Type) (N : Number num) (state : FinancialState num) (k : nat),
      Forall2 investmentStepsTo
              (activeInvestments (varsAt state k))
              (activeInvestments (varsAt state (S k))) /\
      forall h : Z,
        (Z.of_nat (S k) <= h)%Z ->
        exists e1 e2,
          generateProjectionData state h !! k = Some e1 /\
          generateProjectionData state h !! S k = Some e2 /\
          actualSavings e2 = cashAfterMonth state k (actualSavings e1)) /\
  (forall (state : FinancialState Q) (k : nat),
      Forall2 investmentStepRel
              (activeInvestments (varsAt state k))
              (activeInvestments (varsAt state (S k))) /\
      sumOf monthlyContribution (activeInvestments (varsAt state k))
      = sumOf monthlyContribution (investments state) /\
      forall h : Z,
        (Z.of_nat (S k) <= h)%Z ->
        exists e1 e2,
          generateProjectionData state h !! k = Some e1 /\
          generateProjectionData state h !! S k = Some e2 /\
          actualSavings e2
          == actualSavings e1 + netFlow state - paymentsAt state k
             - sumOf monthlyContribution (activeInvestments (varsAt state k))).
Proof.
  split.
  - intros num N state k. split.
    + rewrite varsAt_S, monthlyFlow_activeInvestments.
      apply Forall2_map_after, investmentAfter_stepsTo.
    + intros h Hk.
      destruct (consecutive_entries state h k Hk) as (e1 & e2 & H1 & H2 & Hc1 & Hc2).
      exists e1, e2. split; [exact H1|]. split; [exact H2|].
      rewrite Hc1, Hc2. apply currentCash_cashAfterMonth.
  - intros state k. split; [|split].
    + rewrite varsAt_S, monthlyFlow_activeInvestments.
      apply Forall2_map_after, investmentAfter_rel.
    + apply contributions_constant.
    + intros h Hk.
      destruct (consecutive_entries state h k Hk) as (e1 & e2 & H1 & H2 & Hc1 & Hc2).
      exists e1, e2. split; [exact H1|]. split; [exact H2|].
      rewrite Hc1, Hc2, contributions_constant. apply currentCash_step.
Qed.

(** C3 (amended). In every simulated month and for every loan: in any
    number representation a loan with a positive balance gets the balance
    less (monthlyPayment - interest), the interest being taken on the
    balance before the update, and 0 if that is negative; any other loan
    is left as it is; from one entry of the projection to the next the
    cash is debited the payments of the loans with a positive balance
    only.  In exact arithmetic the new balance is
    max(0, balance - (monthlyPayment - interest)); a loan that starts the
    month with 0 <= remainingBalance <= principal ends it with
    0 <= remainingBalance, and with remainingBalance <= principal exactly
    when its balance was 0 or balance + interest - monthlyPayment is at
    most the principal; loans whose rate is not negative and whose
    payment covers the interest stay within the bounds in every month;
    when no loan has a positive balance the loans stay as they are and
    nothing is debited for them. *)
Theorem C3_loan_step :
  (forall (num : Type) (N : Number num) (state : FinancialState num) (k : nat),
      Forall2 loanStepsTo
              (activeLoans (varsAt state k))
              (activeLoans (varsAt state (S k))) /\
      forall h : Z,
        (Z.of_nat (S k) <= h)%Z ->
        exists e1 e2,
          generateProjectionData state h !! k = Some e1 /\
          generateProjectionData state h !! S k = Some e2 /\
          actualSavings e2 = cashAfterMonth state k (actualSavings e1)) /\
  (forall (state : FinancialState Q) (k : nat),
      Forall2 (fun l l' =>
                 loanStepRel l l' /\
                 (0 <= remainingBalance l <= principal l ->
                  0 <= remainingBalance l' /\
                  (remainingBalance l' <= principal l' <->
                   remainingBalance l == 0 \/
                   remainingBalance l + monthInterest l - monthlyPayment l
                   <= principal l)) /\
                 (loanOK l -> loanOK l'))
              (activeLoans (varsAt state k))
              (activeLoans (varsAt state (S k))) /\
      (Forall loanOK (loans state) ->
       Forall loanOK (activeLoans (varsAt state k)) /\
       Forall loanOK (activeLoans (varsAt state (S k)))) /\
      (Forall (fun l => remainingBalance l <= 0) (activeLoans (varsAt state k)) ->
       activeLoans (varsAt state (S k)) = activeLoans (varsAt state k) /\
       paymentsAt state k == 0) /\
      forall h : Z,
        (Z.of_nat (S k) <= h)%Z ->
        exists e1 e2,
          generateProjectionData state h !! k = Some e1 /\
          generateProjectionData state h !! S k = Some e2 /\
          actualSavings e2
          == actualSavings e1 + netFlow state - paymentsAt state k
             - App.monthlyInvContribution state).
Proof.
  split.
  - intros num N state k. split.
    + rewrite varsAt_S, monthlyFlow_activeLoans.
      apply Forall2_map_after, loanAfter_stepsTo.
    + intros h Hk.
      destruct (consecutive_entries state h k Hk) as (e1 & e2 & H1 & H2 & Hc1 & Hc2).
      exists e1, e2. split; [exact H1|]. split; [exact H2|].
      rewrite Hc1, Hc2. apply currentCash_cashAfterMonth.
  - intros state k. split; [|split; [|split]].
    + rewrite varsAt_S, monthlyFlow_activeLoans.
      apply Forall2_map_after. intros l.
      split; [apply loanAfter_rel|].
      split; [apply loanAfter_bounds | apply loanAfter_OK].
    + intros Hok. split; apply loans_stay_OK; exact Hok.
    + intros Hpaid. rewrite varsAt_S, monthlyFlow_activeLoans.
      exact (loans_all_paid_off _ Hpaid).
    + intros h Hk.
      destruct (consecutive_entries state h k Hk) as (e1 & e2 & H1 & H2 & Hc1 & Hc2).
      exists e1, e2. split; [exact H1|]. split; [exact H2|].
      rewrite Hc1, Hc2. apply currentCash_step.
Qed.

(** *** The emergency-fund classifier *)

(** The label of an emergency-fund ratio. *)
Lemma emergency_bands (ratio : Q) :
  (6 <= ratio ->
   RiskAnalysis.label (RiskAnalysis.getEmergencyStatus ratio) = "Excellent") /\
  (3 <= ratio < 6 ->
   RiskAnalysis.label (RiskAnalysis.getEmergencyStatus ratio) = "Good") /\
  (1 <= ratio < 3 ->
   RiskAnalysis.label (RiskAnalysis.getEmergencyStatus ratio) = "At Risk") /\
  (ratio < 1 ->
   RiskAnalysis.label (RiskAnalysis.getEmergencyStatus ratio) = "Critical").
Proof.
  unfold RiskAnalysis.getEmergencyStatus. cbn [num_ge lit Q_Number].
  unfold inject_Z. repeat split.
  - intros H6. apply Qle_bool_iff in H6. now rewrite H6.
  - intros [H3 H6]. apply Qle_bool_iff in H3. apply Qle_bool_false in H6.
    now rewrite H6, H3.
  - intros [H1 H3].
    assert (H6 : Qle_bool 6 ratio = false) by (apply Qle_bool_false; lra).
    apply Qle_bool_iff in H1. apply Qle_bool_false in H3.
    now rewrite H6, H3, H1.
  - intros H1.
    assert (H3 : Qle_bool 3 ratio = false) by (apply Qle_bool_false; lra).
    assert (H6 : Qle_bool 6 ratio = false) by (apply Qle_bool_false; lra).
    apply Qle_bool_false in H1. now rewrite H6, H3, H1.
Qed.


End ExactArithmetic.

(** C3 (as stated) fails: the loan of [UNDERPAID_STATE] starts with
    0 <= remainingBalance <= principal and a rate >= 0, and after one
    month its remaining balance is 1005, above its principal 1000. *)
Lemma C3_loan_step_counterexample :
  Forall (fun l => 0 <= remainingBalance l <= principal l
                   /\ 0 <= interestRate l)%Q
         (loans UNDERPAID_STATE) /\
  exists l',
    activeLoans (varsAt UNDERPAID_STATE 1) = [l'] /\
    (remainingBalance l' == 1005)%Q /\
    (principal l' == 1000)%Q /\
    ~ (remainingBalance l' <= principal l')%Q.
Proof.
  split.
  - repeat constructor; vm_compute; discriminate.
  - eexists. split; [vm_compute; reflexivity|].
    repeat split; vm_compute; try reflexivity. intros Hle. now apply Hle.
Qed.

Lemma C3_loan_step_witness :
  Forall loanOK (loans INITIAL_STATE) /\
  Forall loanOK (activeLoans (varsAt INITIAL_STATE 12)) /\
  Forall loanOK (activeLoans (varsAt INITIAL_STATE 13)) /\
  exists l l',
    activeLoans (varsAt HEADROOM_STATE 0) = [l] /\
    activeLoans (varsAt HEADROOM_STATE 1) = [l'] /\
    (0 <= remainingBalance l <= principal l)%Q /\
    (monthlyPayment l < monthInterest l)%Q /\
    (0 <= remainingBalance l' <= principal l')%Q.
Proof.
  assert (Hok : Forall loanOK (loans INITIAL_STATE))
    by (repeat constructor; cbn; vm_compute; discriminate).
  split; [exact Hok|].
  pose proof (proj2 C3_loan_step INITIAL_STATE 12) as (_ & Hstay & _).
  split; [exact (proj1 (Hstay Hok))|]. split; [exact (proj2 (Hstay Hok))|].
  pose proof (proj2 C3_loan_step HEADROOM_STATE 0%nat) as (Hstep & _).
  assert (E0 : activeLoans (varsAt HEADROOM_STATE 0)
               = [mkLoan "l1" "Bridge Loan" 1000 100 12 0.5 60]%Q)
    by reflexivity.
  assert (E1 : activeLoans (varsAt HEADROOM_STATE 1)
               = [loanAfter (mkLoan "l1" "Bridge Loan" 1000 100 12 0.5 60)%Q])
    by reflexivity.
  rewrite E0, E1 in Hstep. apply Forall2_cons_1 in Hstep as [(_ & Hbounds & _) _].
  assert (Hin : (0 <= 100 <= 1000)%Q) by (split; vm_compute; discriminate).
  destruct (Hbounds Hin) as [Hlo Hhi].
  eexists _, _. split; [exact E0|]. split; [exact E1|].
  split; [exact Hin|]. split; [reflexivity|].
  split; [exact Hlo|]. apply Hhi. right. vm_compute. discriminate.
Defined.



(** ** The projection and the caller's objects *)

Section HeapFacts.
Context {num : Type} `{Number num}.
Open Scope js_scope.

(** The objects the loop works on sit at consecutive references after the
    caller's: each lemma below runs one operation on a store of the form
    [pre ++ x :: post] at the reference [length pre]. *)

Lemma bind_Some {A B : Type} (m : Heap.M num A) (k : A -> Heap.M num B)
      (h h' : Heap.heap num) (a : A) :
  m h = Some (a, h') -> Heap.bind m k h = k a h'.
Proof. unfold Heap.bind. now intros ->. Qed.

Lemma insert_middle {A : Type} (pre post : list A) (x y : A) :
  <[length pre := y]> (pre ++ x :: post) = pre ++ y :: post.
Proof.
  rewrite insert_app_r_alt by lia. now rewrite Nat.sub_diag.
Qed.

Section Loans.
Variables (I : list (Investment num)) (A : list (list Heap.loc)).

Lemma getLoan_at (pre : list (Loan num)) (l : Loan num) (post : list (Loan num)) :
  Heap.getLoan (length pre) (Heap.mkHeap (pre ++ l :: post) I A)
  = Some (l, Heap.mkHeap (pre ++ l :: post) I A).
Proof.
  unfold Heap.getLoan. cbn [Heap.loanObjs].
  now rewrite list_lookup_middle by reflexivity.
Qed.

Lemma assign_remainingBalance_at (pre : list (Loan num)) (l : Loan num)
      (post : list (Loan num)) (v : num) :
  Heap.assign_remainingBalance (length pre) v (Heap.mkHeap (pre ++ l :: post) I A)
  = Some (tt, Heap.mkHeap (pre ++ set_remainingBalance l v :: post) I A).
Proof.
  unfold Heap.assign_remainingBalance.
  rewrite (bind_Some _ _ _ _ _ (getLoan_at pre l post)).
  unfold Heap.putLoan. cbn [Heap.loanObjs Heap.investmentObjs Heap.arrays].
  rewrite list_lookup_middle by reflexivity.
  now rewrite insert_middle.
Qed.

(** The body of the loan loop through a reference does to the object what
    [loanStep] does to the value. *)
Lemma loanBody_at (cash : num) (pre : list (Loan num)) (l : Loan num)
      (post : list (Loan num)) :
  Heap.loanBody cash (length pre) (Heap.mkHeap (pre ++ l :: post) I A)
  = Some (fst (loanStep cash l), Heap.mkHeap (pre ++ loanAfter l :: post) I A).
Proof.
  unfold Heap.loanBody.
  rewrite (bind_Some _ _ _ _ _ (getLoan_at pre l post)).
  unfold loanAfter, loanStep.
  destruct (remainingBalance l >? lit 0); [|reflexivity].
  rewrite (bind_Some _ _ _ _ _ (assign_remainingBalance_at pre l post _)).
  rewrite (bind_Some _ _ _ _ _ (getLoan_at pre _ post)).
  cbn [fst snd].
  destruct (remainingBalance (set_remainingBalance l _) <? lit 0).
  - rewrite (bind_Some _ _ _ _ _ (assign_remainingBalance_at pre _ post _)).
    reflexivity.
  - reflexivity.
Qed.

Lemma forEachRef_loans (ls pre : list (Loan num)) (cash : num) :
  Heap.forEachRef Heap.loanBody cash (seq (length pre) (length ls))
             (Heap.mkHeap (pre ++ ls) I A)
  = Some (fst (forEach loanStep cash ls),
          Heap.mkHeap (pre ++ map loanAfter ls) I A).
Proof.
  revert pre cash. induction ls as [|l ls IH]; intros pre cash.
  - reflexivity.
  - cbn [length seq Heap.forEachRef map].
    rewrite (bind_Some _ _ _ _ _ (loanBody_at cash pre l ls)).
    rewrite forEach_fst_cons.
    specialize (IH (pre ++ [loanAfter l]) (fst (loanStep cash l))).
    rewrite length_app, Nat.add_1_r, <- !app_assoc in IH. exact IH.
Qed.

Lemma reduceRefs_loans (field : Loan num -> num) (ls pre : list (Loan num))
      (acc : num) :
  Heap.reduceRefs Heap.getLoan field acc (seq (length pre) (length ls))
             (Heap.mkHeap (pre ++ ls) I A)
  = Some (fold_left (fun a x => a + field x) ls acc, Heap.mkHeap (pre ++ ls) I A).
Proof.
  revert pre acc. induction ls as [|l ls IH]; intros pre acc.
  - reflexivity.
  - cbn [length seq Heap.reduceRefs fold_left].
    rewrite (bind_Some _ _ _ _ _ (getLoan_at pre l ls)).
    specialize (IH (pre ++ [l]) (acc + field l)).
    rewrite length_app, Nat.add_1_r, <- !app_assoc in IH. exact IH.
Qed.

(** [map(l => ({ ...l }))] appends one copy per element, in order, and
    returns their references; the elements may repeat. *)
Lemma copy_loans (L : list (Loan num)) (ps : list Heap.loc) (vals : list (Loan num)) :
  Forall2 (fun p v => L !! p = Some v) ps vals ->
  forall ext,
    Heap.mapRefs Heap.copyLoan ps (Heap.mkHeap (L ++ ext) I A)
    = Some (seq (length (L ++ ext)) (length vals),
            Heap.mkHeap (L ++ ext ++ vals) I A).
Proof.
  induction 1 as [|p v ps vals Hp _ IH]; intros ext.
  - cbn. now rewrite app_nil_r.
  - cbn [Heap.mapRefs length seq].
    assert (Hcopy : Heap.copyLoan p (Heap.mkHeap (L ++ ext) I A)
                    = Some (length (L ++ ext), Heap.mkHeap (L ++ ext ++ [v]) I A)).
    { unfold Heap.copyLoan, Heap.bind, Heap.getLoan, Heap.newLoan. cbn [Heap.loanObjs Heap.investmentObjs Heap.arrays].
      rewrite (lookup_app_l_Some _ _ _ _ Hp).
      cbn [Heap.loanObjs Heap.investmentObjs Heap.arrays]. now rewrite <- app_assoc. }
    rewrite (bind_Some _ _ _ _ _ Hcopy).
    rewrite (bind_Some _ _ _ _ _ (IH (ext ++ [v]))).
    unfold Heap.ret. rewrite !length_app. cbn [length].
    rewrite <- !app_assoc. cbn [app].
    replace (length L + (length ext + 1))%nat
      with (S (length L + length ext)) by lia.
    reflexivity.
Qed.

End Loans.

Section Investments.
Variables (L : list (Loan num)) (A : list (list Heap.loc)).

Lemma getInvestment_at (pre : list (Investment num)) (i : Investment num)
      (post : list (Investment num)) :
  Heap.getInvestment (length pre) (Heap.mkHeap L (pre ++ i :: post) A)
  = Some (i, Heap.mkHeap L (pre ++ i :: post) A).
Proof.
  unfold Heap.getInvestment. cbn [Heap.investmentObjs].
  now rewrite list_lookup_middle by reflexivity.
Qed.

Lemma assign_balance_at (pre : list (Investment num)) (i : Investment num)
      (post : list (Investment num)) (v : num) :
  Heap.assign_balance (length pre) v (Heap.mkHeap L (pre ++ i :: post) A)
  = Some (tt, Heap.mkHeap L (pre ++ set_balance i v :: post) A).
Proof.
  unfold Heap.assign_balance.
  rewrite (bind_Some _ _ _ _ _ (getInvestment_at pre i post)).
  unfold Heap.putInvestment. cbn [Heap.loanObjs Heap.investmentObjs Heap.arrays].
  rewrite list_lookup_middle by reflexivity.
  now rewrite insert_middle.
Qed.

Lemma investmentBody_at (cash : num) (pre : list (Investment num))
      (i : Investment num) (post : list (Investment num)) :
  Heap.investmentBody cash (length pre) (Heap.mkHeap L (pre ++ i :: post) A)
  = Some (fst (investmentStep cash i),
          Heap.mkHeap L (pre ++ investmentAfter i :: post) A).
Proof.
  unfold Heap.investmentBody.
  rewrite (bind_Some _ _ _ _ _ (getInvestment_at pre i post)).
  rewrite (bind_Some _ _ _ _ _ (assign_balance_at pre i post _)).
  rewrite (bind_Some _ _ _ _ _ (getInvestment_at pre _ post)).
  rewrite (bind_Some _ _ _ _ _ (assign_balance_at pre _ post _)).
  reflexivity.
Qed.

Lemma forEachRef_investments (ivs pre : list (Investment num)) (cash : num) :
  Heap.forEachRef Heap.investmentBody cash (seq (length pre) (length ivs))
             (Heap.mkHeap L (pre ++ ivs) A)
  = Some (fst (forEach investmentStep cash ivs),
          Heap.mkHeap L (pre ++ map investmentAfter ivs) A).
Proof.
  revert pre cash. induction ivs as [|i ivs IH]; intros pre cash.
  - reflexivity.
  - cbn [length seq Heap.forEachRef map].
    rewrite (bind_Some _ _ _ _ _ (investmentBody_at cash pre i ivs)).
    rewrite forEach_fst_cons.
    specialize (IH (pre ++ [investmentAfter i]) (fst (investmentStep cash i))).
    rewrite length_app, Nat.add_1_r, <- !app_assoc in IH. exact IH.
Qed.

Lemma reduceRefs_investments (field : Investment num -> num)
      (ivs pre : list (Investment num)) (acc : num) :
  Heap.reduceRefs Heap.getInvestment field acc (seq (length pre) (length ivs))
             (Heap.mkHeap L (pre ++ ivs) A)
  = Some (fold_left (fun a x => a + field x) ivs acc,
          Heap.mkHeap L (pre ++ ivs) A).
Proof.
  revert pre acc. induction ivs as [|i ivs IH]; intros pre acc.
  - reflexivity.
  - cbn [length seq Heap.reduceRefs fold_left].
    rewrite (bind_Some _ _ _ _ _ (getInvestment_at pre i ivs)).
    specialize (IH (pre ++ [i]) (acc + field i)).
    rewrite length_app, Nat.add_1_r, <- !app_assoc in IH. exact IH.
Qed.

Lemma copy_investments (I : list (Investment num)) (ps : list Heap.loc)
      (vals : list (Investment num)) :
  Forall2 (fun p v => I !! p = Some v) ps vals ->
  forall ext,
    Heap.mapRefs Heap.copyInvestment ps (Heap.mkHeap L (I ++ ext) A)
    = Some (seq (length (I ++ ext)) (length vals),
            Heap.mkHeap L (I ++ ext ++ vals) A).
Proof.
  induction 1 as [|p v ps vals Hp _ IH]; intros ext.
  - cbn. now rewrite app_nil_r.
  - cbn [Heap.mapRefs length seq].
    assert (Hcopy : Heap.copyInvestment p (Heap.mkHeap L (I ++ ext) A)
                    = Some (length (I ++ ext), Heap.mkHeap L (I ++ ext ++ [v]) A)).
    { unfold Heap.copyInvestment, Heap.bind, Heap.getInvestment, Heap.newInvestment.
      cbn [Heap.loanObjs Heap.investmentObjs Heap.arrays].
      rewrite (lookup_app_l_Some _ _ _ _ Hp).
      cbn [Heap.loanObjs Heap.investmentObjs Heap.arrays]. now rewrite <- app_assoc. }
    rewrite (bind_Some _ _ _ _ _ Hcopy).
    rewrite (bind_Some _ _ _ _ _ (IH (ext ++ [v]))).
    unfold Heap.ret. rewrite !length_app. cbn [length].
    rewrite <- !app_assoc. cbn [app].
    replace (length I + (length ext + 1))%nat
      with (S (length I + length ext)) by lia.
    reflexivity.
Qed.

End Investments.

(** *** The loop *)

Section Loop.
Variables (L0 : list (Loan num)) (I0 : list (Investment num))
          (A0 : list (list Heap.loc)) (nl ni : nat).

Local Abbreviation heapOf := (@loopHeap num L0 I0 A0 nl ni).

Lemma getArray_loans (v : ProjectionVars num) :
  Heap.getArray (length A0) (heapOf v) = Some (seq (length L0) nl, heapOf v).
Proof.
  unfold Heap.getArray, loopHeap. cbn [Heap.arrays].
  now rewrite list_lookup_middle by reflexivity.
Qed.

Lemma getArray_investments (v : ProjectionVars num) :
  Heap.getArray (S (length A0)) (heapOf v)
  = Some (seq (length I0) ni, heapOf v).
Proof.
  unfold Heap.getArray, loopHeap. cbn [Heap.arrays].
  change (A0 ++ [seq (length L0) nl; seq (length I0) ni])
    with (A0 ++ [seq (length L0) nl] ++ [seq (length I0) ni]).
  rewrite app_assoc.
  rewrite list_lookup_middle; [reflexivity|].
  rewrite length_app. cbn [length]. now rewrite Nat.add_1_r.
Qed.

(** The two renderings of the loop run in step. *)
Lemma projectionLoop_simulates (stats : BaseStats num) (months : Z) :
  forall (fuel : nat) (i : Z) (v : ProjectionVars num)
         (data : list (MonthlyData num)),
    length (activeLoans v) = nl ->
    length (activeInvestments v) = ni ->
    exists v',
      Heap.projectionLoop fuel stats months i (currentCash v)
                          (length A0) (S (length A0)) data (heapOf v)
      = Some (projectionLoop fuel stats months i v data, heapOf v').
Proof.
  induction fuel as [|fuel IH]; intros i v data Hnl Hni.
  - exists v. reflexivity.
  - cbn [Heap.projectionLoop projectionLoop].
    destruct (i <=? months)%Z; [|exists v; reflexivity].
    rewrite (bind_Some _ _ _ _ _ (getArray_loans v)).
    assert (Hsum1 :
      Heap.reduceRefs Heap.getLoan remainingBalance (lit 0) (seq (length L0) nl)
                 (heapOf v)
      = Some (sumOf remainingBalance (activeLoans v), heapOf v)).
    { rewrite <- Hnl. apply reduceRefs_loans. }
    rewrite (bind_Some _ _ _ _ _ Hsum1).
    rewrite (bind_Some _ _ _ _ _ (getArray_investments v)).
    assert (Hsum2 :
      Heap.reduceRefs Heap.getInvestment balance (lit 0) (seq (length I0) ni)
                 (heapOf v)
      = Some (sumOf balance (activeInvestments v), heapOf v)).
    { rewrite <- Hni. apply reduceRefs_investments. }
    rewrite (bind_Some _ _ _ _ _ Hsum2).
    change (entry i (currentCash v) (sumOf remainingBalance (activeLoans v))
                  (sumOf balance (activeInvestments v)))
      with (snapshot i v).
    destruct (i =? months)%Z; [exists v; reflexivity|].
    rewrite (bind_Some _ _ _ _ _ (getArray_loans v)).
    assert (Hloans :
      Heap.forEachRef Heap.loanBody (cashAfterFlows stats (currentCash v))
                 (seq (length L0) nl) (heapOf v)
      = Some (fst (forEach loanStep (cashAfterFlows stats (currentCash v))
                           (activeLoans v)),
              heapOf (mkVars (currentCash v) (map loanAfter (activeLoans v))
                               (activeInvestments v)))).
    { rewrite <- Hnl. apply forEachRef_loans. }
    rewrite (bind_Some _ _ _ _ _ Hloans).
    rewrite (bind_Some _ _ _ _ _ (getArray_investments _)).
    set (cash1 := fst (forEach loanStep _ (activeLoans v))).
    assert (Hinvs :
      Heap.forEachRef Heap.investmentBody cash1 (seq (length I0) ni)
                 (heapOf (mkVars (currentCash v)
                                   (map loanAfter (activeLoans v))
                                   (activeInvestments v)))
      = Some (fst (forEach investmentStep cash1 (activeInvestments v)),
              heapOf (monthlyFlow stats v))).
    { rewrite <- Hni. unfold loopHeap. cbn [activeLoans activeInvestments].
      rewrite monthlyFlow_activeLoans, monthlyFlow_activeInvestments.
      apply forEachRef_investments. }
    rewrite (bind_Some _ _ _ _ _ Hinvs).
    specialize (IH (i + 1)%Z (monthlyFlow stats v)
                   (data ++ [snapshot i v])).
    rewrite monthlyFlow_currentCash in IH. fold cash1 in IH.
    apply IH.
    + rewrite monthlyFlow_activeLoans, length_map. exact Hnl.
    + rewrite monthlyFlow_activeInvestments, length_map. exact Hni.
Qed.

End Loop.

(** *** The whole call *)

Lemma contents_Some (h : Heap.heap num) (state : Heap.StateObj num)
      (s : FinancialState num) :
  Heap.contents h state = Some s <->
  exists ps qs,
    Heap.arrays h !! Heap.st_loans state = Some ps /\
    Heap.arrays h !! Heap.st_investments state = Some qs /\
    Forall2 (fun p l => Heap.loanObjs h !! p = Some l) ps (loans s) /\
    Forall2 (fun q i => Heap.investmentObjs h !! q = Some i) qs
            (investments s) /\
    s = {| cashBalance := Heap.st_cashBalance state;
           monthlyIncome := Heap.st_monthlyIncome state;
           transactions := Heap.st_transactions state;
           creditCards := Heap.st_creditCards state;
           loans := loans s;
           investments := investments s |}.
Proof.
  unfold Heap.contents. split.
  - destruct (Heap.arrays h !! Heap.st_loans state) as [ps|]; [|discriminate].
    destruct (Heap.arrays h !! Heap.st_investments state) as [qs|];
      [|discriminate].
    destruct (mapM _ ps) as [ls|] eqn:Hls; [|discriminate].
    destruct (mapM _ qs) as [ivs|] eqn:Hivs; [|discriminate].
    intros [= <-]. exists ps, qs. cbn.
    apply mapM_Some in Hls. apply mapM_Some in Hivs. auto.
  - intros (ps & qs & -> & -> & Hls & Hivs & Hs).
    apply mapM_Some in Hls. apply mapM_Some in Hivs.
    rewrite Hls, Hivs. now rewrite Hs at 3.
Qed.

Lemma unchanged_app (L L' : list (Loan num)) (I I' : list (Investment num))
      (A A' : list (list Heap.loc)) :
  Heap.unchanged (Heap.mkHeap L I A) (Heap.mkHeap (L ++ L') (I ++ I') (A ++ A')).
Proof.
  unfold Heap.unchanged. cbn. repeat split; intros; now apply lookup_app_l_Some.
Qed.

Lemma contents_unchanged (h h' : Heap.heap num) (state : Heap.StateObj num)
      (s : FinancialState num) :
  Heap.unchanged h h' ->
  Heap.contents h state = Some s -> Heap.contents h' state = Some s.
Proof.
  intros (HL & HI & HA). rewrite !contents_Some.
  intros (ps & qs & Hps & Hqs & Hls & Hivs & Hs).
  exists ps, qs. repeat split; auto.
  - eapply Forall2_impl; [exact Hls|]. cbn. auto.
  - eapply Forall2_impl; [exact Hivs|]. cbn. auto.
Qed.

(** On a store where the state object denotes [s], the call returns
    what the value-level rendering returns on [s], and the store it leaves
    is the caller's store followed by the objects the call allocated. *)
Lemma generateProjectionData_simulates (h : Heap.heap num)
      (state : Heap.StateObj num) (s : FinancialState num) (months : Z) :
  Heap.contents h state = Some s ->
  exists L' I' A',
    Heap.generateProjectionData state months h
    = Some (generateProjectionData s months,
            Heap.mkHeap (Heap.loanObjs h ++ L') (Heap.investmentObjs h ++ I')
                        (Heap.arrays h ++ A')).
Proof.
  intros Hc. apply contents_Some in Hc as (ps & qs & Hps & Hqs & Hls & Hivs & Hs).
  destruct h as [L0 I0 A0]. cbn [Heap.loanObjs Heap.investmentObjs Heap.arrays] in *.
  unfold Heap.generateProjectionData.
  assert (Hget1 : Heap.getArray (Heap.st_loans state) (Heap.mkHeap L0 I0 A0)
                  = Some (ps, Heap.mkHeap L0 I0 A0))
    by (unfold Heap.getArray; cbn; now rewrite Hps).
  rewrite (bind_Some _ _ _ _ _ Hget1).
  pose proof (copy_loans I0 A0 L0 ps (loans s) Hls []) as Hcopy1.
  rewrite app_nil_r in Hcopy1. cbn [app] in Hcopy1.
  rewrite (bind_Some _ _ _ _ _ Hcopy1).
  unfold Heap.newArray at 1, Heap.bind at 1.
  cbn [Heap.loanObjs Heap.investmentObjs Heap.arrays].
  assert (Hget2 : forall L A',
             Heap.getArray (Heap.st_investments state)
                           (Heap.mkHeap L I0 (A0 ++ A'))
             = Some (qs, Heap.mkHeap L I0 (A0 ++ A'))).
  { intros. unfold Heap.getArray. cbn.
    now rewrite (lookup_app_l_Some _ _ _ _ Hqs). }
  rewrite (bind_Some _ _ _ _ _ (Hget2 _ _)).
  pose proof (copy_investments (L0 ++ loans s)
                (A0 ++ [seq (length L0) (length (loans s))])
                I0 qs (investments s) Hivs []) as Hcopy2.
  rewrite app_nil_r in Hcopy2. cbn [app] in Hcopy2.
  rewrite (bind_Some _ _ _ _ _ Hcopy2).
  unfold Heap.newArray, Heap.bind at 1.
  cbn [Heap.loanObjs Heap.investmentObjs Heap.arrays].
  rewrite length_app, Nat.add_1_r, <- app_assoc. cbn [app length].
  destruct (projectionLoop_simulates L0 I0 A0 (length (loans s))
              (length (investments s))
              (baseStats (Heap.st_monthlyIncome state)
                         (Heap.st_transactions state)
                         (Heap.st_creditCards state))
              months (S (Z.to_nat months)) 0%Z
              (initialVars s) [] eq_refl eq_refl) as (v' & Hloop).
  exists (activeLoans v'), (activeInvestments v'),
    [seq (length L0) (length (loans s));
     seq (length I0) (length (investments s))].
  assert (Hfields : cashBalance s = Heap.st_cashBalance state /\
                    monthlyIncome s = Heap.st_monthlyIncome state /\
                    transactions s = Heap.st_transactions state /\
                    creditCards s = Heap.st_creditCards state)
    by (rewrite Hs; cbn; auto).
  destruct Hfields as (Hcash & Hinc & Htx & Hcards).
  unfold generateProjectionData, stateStats.
  rewrite Hinc, Htx, Hcards.
  unfold loopHeap in Hloop.
  cbn [initialVars currentCash activeLoans activeInvestments] in Hloop.
  rewrite Hcash in Hloop. exact Hloop.
Qed.

(** C2. The call leaves its argument as it found it: every object the
    caller's store held before the call -- the loans and investments
    arrays and each loan and investment in them -- is still there with the
    same fields afterwards, so the state object denotes the same value;
    and a second call on the same state returns the same sequence as the
    first. *)
Theorem C2_projection_leaves_argument_unchanged
        (h : Heap.heap num) (state : Heap.StateObj num)
        (s : FinancialState num) (months : Z) :
  Heap.contents h state = Some s ->
  exists data h',
    Heap.generateProjectionData state months h = Some (data, h') /\
    data = generateProjectionData s months /\
    Heap.unchanged h h' /\
    Heap.contents h' state = Some s /\
    exists h'', Heap.generateProjectionData state months h' = Some (data, h'').
Proof.
  intros Hc.
  destruct (generateProjectionData_simulates h state s months Hc)
    as (L' & I' & A' & Hrun).
  assert (Hun : Heap.unchanged h (Heap.mkHeap (Heap.loanObjs h ++ L')
                                             (Heap.investmentObjs h ++ I')
                                             (Heap.arrays h ++ A')))
    by (destruct h; apply unchanged_app).
  pose proof (contents_unchanged _ _ _ _ Hun Hc) as Hc'.
  destruct (generateProjectionData_simulates _ state s months Hc')
    as (L'' & I'' & A'' & Hrun').
  eexists _, _. split; [exact Hrun|]. split; [reflexivity|].
  split; [exact Hun|]. split; [exact Hc'|].
  eexists. exact Hrun'.
Qed.

End HeapFacts.

Lemma C2_projection_witness :
  Heap.contents INITIAL_HEAP INITIAL_STATE_OBJ = Some INITIAL_STATE /\
  exists data h',
    Heap.generateProjectionData INITIAL_STATE_OBJ 12 INITIAL_HEAP
      = Some (data, h') /\
    data = generateProjectionData INITIAL_STATE 12 /\
    Heap.unchanged INITIAL_HEAP h' /\
    Heap.contents h' INITIAL_STATE_OBJ = Some INITIAL_STATE /\
    exists h'',
      Heap.generateProjectionData INITIAL_STATE_OBJ 12 h' = Some (data, h'').
Proof.
  split; [reflexivity|].
  exact (C2_projection_leaves_argument_unchanged
           INITIAL_HEAP INITIAL_STATE_OBJ INITIAL_STATE 12 eq_refl).
Defined.

(** * Further properties *)

(** ** Structure of the projection *)

Section ProjectionStructure.
Context {num : Type} `{Number num}.
Open Scope js_scope.

(** X1. A projection over one more month is the shorter projection
    followed by one entry: the entries already produced do not depend on
    the horizon. *)
Theorem X1_projection_extends (state : FinancialState num) (h : Z) :
  (0 <= h)%Z ->
  generateProjectionData state (h + 1)
  = generateProjectionData state h
    ++ [snapshot (h + 1) (varsAt state (S (Z.to_nat h)))].
Proof.
  intros Hh. rewrite !generateProjectionData_closed.
  replace (Z.to_nat (h + 1 + 1)) with (S (Z.to_nat (h + 1))) by lia.
  rewrite seq_S, map_app. cbn [map Nat.add].
  replace (Z.to_nat (h + 1)) with (S (Z.to_nat h)) by lia.
  do 3 f_equal. lia.
Qed.

(** X2. The loans and the investments evolve on their own: two states
    with the same loans have the same loans in every month, two states
    with the same investments have the same investments in every month and
    the same investment-value series, whatever their cash, income,
    transactions and cards. *)
Theorem X2_holdings_evolve_on_their_own (s1 s2 : FinancialState num) (h : Z) :
  (loans s1 = loans s2 ->
   forall k, activeLoans (varsAt s1 k) = activeLoans (varsAt s2 k)) /\
  (investments s1 = investments s2 ->
   (forall k, activeInvestments (varsAt s1 k) = activeInvestments (varsAt s2 k)) /\
   map investmentValue (generateProjectionData s1 h)
   = map investmentValue (generateProjectionData s2 h)).
Proof.
  split.
  - intros Hl k. now rewrite !activeLoans_varsAt, Hl.
  - intros Hinv. split.
    + intros k. now rewrite !activeInvestments_varsAt, Hinv.
    + rewrite !generateProjectionData_closed, !map_map.
      apply map_ext. intros k. cbn.
      now rewrite !activeInvestments_varsAt, Hinv.
Qed.

End ProjectionStructure.

Lemma X1_projection_extends_witness :
  (0 <= 11)%Z /\
  generateProjectionData INITIAL_STATE 12
  = generateProjectionData INITIAL_STATE 11
    ++ [snapshot 12 (varsAt INITIAL_STATE 12)].
Proof.
  split; [lia|]. exact (X1_projection_extends INITIAL_STATE 11 ltac:(lia)).
Defined.

Lemma X2_holdings_witness :
  investments INITIAL_STATE = investments PAID_OFF_STATE /\
  map investmentValue (generateProjectionData INITIAL_STATE 12)
  = map investmentValue (generateProjectionData PAID_OFF_STATE 12).
Proof.
  split; [reflexivity|].
  exact (proj2 (proj2 (X2_holdings_evolve_on_their_own
                         INITIAL_STATE PAID_OFF_STATE 12) eq_refl)).
Defined.

(** ** Loans over the months, in exact arithmetic *)

Section ExactLoans.
Open Scope Q_scope.

Lemma loanAfter_nonneg (l : Loan Q) :
  0 <= remainingBalance l -> 0 <= remainingBalance (loanAfter l).
Proof.
  intros Hl.
  destruct (loanAfter_rel l) as (_ & _ & _ & _ & _ & _ & Hstep & Hskip).
  destruct (Qlt_le_dec 0 (remainingBalance l)) as [Hpos|Hz].
  - rewrite (Hstep Hpos). apply Q.le_max_l.
  - now rewrite (Hskip Hz).
Qed.

(** X3. Whatever the rates and the payments, a remaining balance that
    is not negative never becomes negative. *)
Theorem X3_balances_never_negative (state : FinancialState Q) (k : nat) :
  Forall (fun l => 0 <= remainingBalance l) (loans state) ->
  Forall (fun l => 0 <= remainingBalance l) (activeLoans (varsAt state k)).
Proof.
  intros Hok. induction k as [|k IH]; [exact Hok|].
  rewrite varsAt_S, monthlyFlow_activeLoans.
  apply List.Forall_forall. intros l' Hin.
  apply in_map_iff in Hin as (l & <- & Hin).
  apply loanAfter_nonneg. rewrite List.Forall_forall in IH. now apply IH.
Qed.

Lemma paid_off_fixed (l : Loan Q) (k : nat) :
  remainingBalance l <= 0 -> Nat.iter k loanAfter l = l.
Proof.
  intros Hz. induction k as [|k IH]; [reflexivity|].
  change (Nat.iter (S k) loanAfter l) with (loanAfter (Nat.iter k loanAfter l)).
  rewrite IH.
  destruct (loanAfter_rel l) as (_ & _ & _ & _ & _ & _ & _ & Hskip). auto.
Qed.

(** X4. A loan whose remaining balance has reached 0 in some month is
    the very same loan in every later month: nothing is paid on it and
    nothing accrues. *)
Theorem X4_paid_off_loan_stays_paid_off (state : FinancialState Q)
        (k m j : nat) (l : Loan Q) :
  activeLoans (varsAt state k) !! j = Some l ->
  remainingBalance l <= 0 ->
  activeLoans (varsAt state (k + m)) !! j = Some l.
Proof.
  rewrite !activeLoans_varsAt, !lookup_map.
  destruct (loans state !! j) as [l0|]; [|discriminate].
  cbn. intros [= <-] Hz. f_equal.
  rewrite Nat.add_comm, Nat.iter_add. now apply paid_off_fixed.
Qed.

Lemma payoff_step (l : Loan Q) (d : Q) :
  loanOK l -> 0 < d ->
  d <= monthlyPayment l - remainingBalance l * (interestRate l / 100 / 12) ->
  remainingBalance (loanAfter l) <= Qmax 0 (remainingBalance l - d).
Proof.
  intros ((Hlo & Hhi) & Hrate & Hcover) Hd Hgap.
  destruct (loanAfter_rel l) as (_ & _ & _ & _ & _ & _ & Hstep & Hskip).
  destruct (Qlt_le_dec 0 (remainingBalance l)) as [Hpos|Hz].
  - rewrite (Hstep Hpos). apply Q.max_le_compat_l. lra.
  - rewrite (Hskip Hz). apply Qle_trans with 0; [lra | apply Q.le_max_l].
Qed.

Lemma payoff_iter (l : Loan Q) (d : Q) (k : nat) :
  loanOK l -> 0 < d ->
  d <= monthlyPayment l - remainingBalance l * (interestRate l / 100 / 12) ->
  let lk := Nat.iter k loanAfter l in
  loanOK lk /\
  monthlyPayment lk = monthlyPayment l /\
  interestRate lk = interestRate l /\
  remainingBalance lk <= remainingBalance l /\
  remainingBalance lk <= Qmax 0 (remainingBalance l - inject_Z (Z.of_nat k) * d).
Proof.
  intros Hok Hd Hgap. induction k as [|k IH]; cbn zeta.
  - cbn. repeat split; try apply Hok; try lra.
    apply Qle_trans with (remainingBalance l - 0 * d); [ring_simplify; lra|].
    apply Q.le_max_r.
  - change (Nat.iter (S k) loanAfter l) with (loanAfter (Nat.iter k loanAfter l)).
    cbn zeta in IH.
    set (lk := Nat.iter k loanAfter l) in *.
    destruct IH as (Hokk & Hm & Hr & Hle & Hbound).
    destruct (loanAfter_rel lk) as (_ & _ & _ & Hr' & Hm' & _ & _ & _).
    assert (Hrate : 0 <= interestRate l / 100 / 12).
    { rewrite monthly_rate. destruct Hok as (_ & ? & _). lra. }
    assert (Hgapk : d <= monthlyPayment lk
                          - remainingBalance lk * (interestRate lk / 100 / 12)).
    { rewrite Hm, Hr.
      assert (remainingBalance lk * (interestRate l / 100 / 12)
              <= remainingBalance l * (interestRate l / 100 / 12))
        by (apply Qmult_le_compat_r; assumption).
      lra. }
    pose proof (payoff_step lk d Hokk Hd Hgapk) as Hstep.
    pose proof (loanAfter_OK lk Hokk) as Hok'.
    split; [exact Hok'|]. split; [congruence|]. split; [congruence|].
    assert (Hdec : remainingBalance (loanAfter lk) <= remainingBalance lk).
    { eapply Qle_trans; [exact Hstep|].
      apply Q.max_lub; [apply Hokk | lra]. }
    split; [lra|].
    eapply Qle_trans; [exact Hstep|].
    apply Q.max_lub; [apply Q.le_max_l|].
    rewrite Nat2Z.inj_succ. unfold Z.succ. rewrite inject_Z_plus.
    destruct (Q.max_spec 0 (remainingBalance l - inject_Z (Z.of_nat k) * d))
      as [[Hlt Heq]|[Hge Heq]]; rewrite Heq in Hbound.
    + apply Qle_trans
        with (remainingBalance l - (inject_Z (Z.of_nat k) + inject_Z 1) * d);
        [|apply Q.le_max_r].
      unfold inject_Z at 2. ring_simplify. lra.
    + apply Qle_trans with 0; [lra | apply Q.le_max_l].
Qed.

(** X5. A loan within bounds whose payment exceeds the first month's
    interest by [d > 0] repays at least [d] of principal every month, so
    it is paid off (remaining balance 0) after any number of months [k]
    with [k * d >= remainingBalance]. *)
Theorem X5_loan_paid_off_within (state : FinancialState Q) (j k : nat)
        (l : Loan Q) (d : Q) :
  loans state !! j = Some l ->
  loanOK l ->
  0 < d ->
  d <= monthlyPayment l - remainingBalance l * (interestRate l / 100 / 12) ->
  remainingBalance l <= inject_Z (Z.of_nat k) * d ->
  exists lk,
    activeLoans (varsAt state k) !! j = Some lk /\
    remainingBalance lk == 0.
Proof.
  intros Hj Hok Hd Hgap Hk.
  exists (Nat.iter k loanAfter l). split.
  - rewrite activeLoans_varsAt, lookup_map, Hj. reflexivity.
  - destruct (payoff_iter l d k Hok Hd Hgap) as (Hokk & _ & _ & _ & Hb).
    apply Qle_antisym; [|apply Hokk].
    eapply Qle_trans; [exact Hb|]. apply Q.max_lub; lra.
Qed.

End ExactLoans.

Lemma X3_balances_witness :
  Forall (fun l => 0 <= remainingBalance l)%Q (loans UNDERPAID_STATE) /\
  Forall (fun l => 0 <= remainingBalance l)%Q
         (activeLoans (varsAt UNDERPAID_STATE 24)).
Proof.
  assert (Hok : Forall (fun l => 0 <= remainingBalance l)%Q
                       (loans UNDERPAID_STATE))
    by (repeat constructor; vm_compute; discriminate).
  split; [exact Hok|]. exact (X3_balances_never_negative UNDERPAID_STATE 24 Hok).
Defined.

Lemma X4_paid_off_witness :
  exists l,
    activeLoans (varsAt PAID_OFF_STATE 0) !! 0%nat = Some l /\
    (remainingBalance l <= 0)%Q /\
    activeLoans (varsAt PAID_OFF_STATE (0 + 12)) !! 0%nat = Some l.
Proof.
  eexists. split; [reflexivity|].
  assert (Hz : (0 <= 0)%Q) by (vm_compute; discriminate).
  split; [exact Hz|].
  exact (X4_paid_off_loan_stays_paid_off PAID_OFF_STATE 0 12 0 _ eq_refl Hz).
Defined.

Lemma X5_loan_paid_off_witness :
  exists lk,
    activeLoans (varsAt INITIAL_STATE 97) !! 0%nat = Some lk /\
    (remainingBalance lk == 0)%Q.
Proof.
  refine (X5_loan_paid_off_within INITIAL_STATE 0 97
            (mkLoan "l1" "Student Loan" 25000 18400 4.5 260 120)%Q 191%Q
            eq_refl _ _ _ _).
  - repeat split; vm_compute; discriminate.
  - reflexivity.
  - vm_compute; discriminate.
  - vm_compute; discriminate.
Defined.

(** ** Cash and investments over the months, in exact arithmetic *)

Section ExactFlows.
Open Scope Q_scope.

(** X6. From one entry of the projection to the next, the cash figure
    changes by the monthly income plus the cashback, less the expenses,
    less the payments of the loans that still have a positive balance that
    month, less the contributions of all the investments. *)
Theorem X6_monthly_cash_change (state : FinancialState Q) (h : Z) (k : nat) :
  (Z.of_nat (S k) <= h)%Z ->
  exists e1 e2,
    generateProjectionData state h !! k = Some e1 /\
    generateProjectionData state h !! S k = Some e2 /\
    actualSavings e2
    == actualSavings e1 + netFlow state - paymentsAt state k
       - App.monthlyInvContribution state.
Proof.
  intros Hk. eexists _, _.
  split; [apply generateProjectionData_lookup; lia|].
  split; [apply generateProjectionData_lookup; lia|].
  cbn [snapshot entry actualSavings]. apply currentCash_step.
Qed.

(** *** Comparing two states *)

Lemma paymentsAt_same (s1 s2 : FinancialState Q) (k : nat) :
  loans s1 = loans s2 -> paymentsAt s1 k = paymentsAt s2 k.
Proof.
  intros Hl. unfold paymentsAt. now rewrite !activeLoans_varsAt, Hl.
Qed.

(** X7. Two states with the same loans and the same investments have
    cash figures that differ, after [k] months, by their initial difference
    plus [k] times the difference of their net monthly flows (income plus
    cashback less expenses). *)
Theorem X7_cash_difference_is_linear (s1 s2 : FinancialState Q) (k : nat) :
  loans s1 = loans s2 ->
  investments s1 = investments s2 ->
  currentCash (varsAt s1 k) - currentCash (varsAt s2 k)
  == (cashBalance s1 - cashBalance s2)
     + inject_Z (Z.of_nat k) * (netFlow s1 - netFlow s2).
Proof.
  intros Hl Hi. induction k as [|k IH].
  - cbn. ring.
  - rewrite !currentCash_step, (paymentsAt_same s1 s2 k Hl).
    unfold App.monthlyInvContribution. rewrite Hi.
    rewrite Nat2Z.inj_succ. unfold Z.succ. rewrite inject_Z_plus.
    unfold inject_Z at 2.
    assert (Hc : currentCash (varsAt s1 k)
                 == currentCash (varsAt s2 k) + (cashBalance s1 - cashBalance s2)
                    + inject_Z (Z.of_nat k) * (netFlow s1 - netFlow s2))
      by lra.
    rewrite Hc. ring.
Qed.

(** *** Investments *)

Lemma investmentAfter_grows (i : Investment Q) :
  investmentOK i ->
  investmentOK (investmentAfter i) /\ balance i <= balance (investmentAfter i).
Proof.
  intros (Hb & Hr & Hc).
  destruct (investmentAfter_rel i) as (_ & _ & Hr' & Hc' & Hbal).
  assert (Hk : 0 <= annualReturnRate i / 100 / 12)
    by (rewrite monthly_rate; lra).
  assert (Hg : 0 <= (balance i + monthlyContribution i)
                    * (annualReturnRate i / 100 / 12))
    by (apply Qmult_le_0_compat; lra).
  assert (Hbal' : balance (investmentAfter i)
                  == balance i + monthlyContribution i
                     + (balance i + monthlyContribution i)
                       * (annualReturnRate i / 100 / 12))
    by (rewrite Hbal; ring).
  unfold investmentOK. rewrite Hr', Hc'. repeat split; lra.
Qed.

Lemma investments_stay_OK (state : FinancialState Q) (k : nat) :
  Forall investmentOK (investments state) ->
  Forall investmentOK (activeInvestments (varsAt state k)).
Proof.
  intros Hok. induction k as [|k IH]; [exact Hok|].
  rewrite varsAt_S, monthlyFlow_activeInvestments.
  apply List.Forall_forall. intros i' Hin.
  apply in_map_iff in Hin as (i & <- & Hin).
  apply investmentAfter_grows. rewrite List.Forall_forall in IH. now apply IH.
Qed.

Lemma sumOf_map_le {A : Type} (f : A -> Q) (g : A -> A) (xs : list A) :
  Forall (fun x => f x <= f (g x)) xs -> sumOf f xs <= sumOf f (map g xs).
Proof.
  induction 1 as [|x xs Hx _ IH]; [cbn; lra|].
  cbn [map]. rewrite !sumOf_cons. lra.
Qed.

(** X8. With balances, return rates and contributions that are not
    negative, the investment value of the projection never goes down from
    one month to the next. *)
Theorem X8_investment_value_grows (state : FinancialState Q) (h : Z) (k : nat) :
  Forall investmentOK (investments state) ->
  (Z.of_nat (S k) <= h)%Z ->
  exists e1 e2,
    generateProjectionData state h !! k = Some e1 /\
    generateProjectionData state h !! S k = Some e2 /\
    investmentValue e1 <= investmentValue e2.
Proof.
  intros Hok Hk. eexists _, _.
  split; [apply generateProjectionData_lookup; lia|].
  split; [apply generateProjectionData_lookup; lia|].
  cbn [snapshot entry investmentValue].
  rewrite varsAt_S, monthlyFlow_activeInvestments.
  apply sumOf_map_le.
  eapply List.Forall_impl; [|exact (investments_stay_OK state k Hok)].
  intros i Hi. now apply investmentAfter_grows.
Qed.

(** X9. An investment without contributions compounds monthly: after [k]
    months its balance is the initial balance times
    (1 + annualReturnRate/100/12)^k. *)
Theorem X9_compound_growth (state : FinancialState Q) (j k : nat)
        (i : Investment Q) :
  investments state !! j = Some i ->
  monthlyContribution i == 0 ->
  exists ik,
    activeInvestments (varsAt state k) !! j = Some ik /\
    balance ik
    == balance i * (1 + annualReturnRate i / 100 / 12) ^ Z.of_nat k.
Proof.
  intros Hj Hc. exists (Nat.iter k investmentAfter i). split.
  - rewrite activeInvestments_varsAt, lookup_map, Hj. reflexivity.
  - induction k as [|k IH].
    + change (balance i == balance i * 1). ring.
    + change (Nat.iter (S k) investmentAfter i)
        with (investmentAfter (Nat.iter k investmentAfter i)).
      destruct (investmentAfter_rel (Nat.iter k investmentAfter i))
        as (_ & _ & _ & _ & Hbal).
      destruct (contribution_iter i k) as (Hck & Hrk).
      rewrite Hbal, Hck, Hrk, IH, Hc.
      rewrite Nat2Z.inj_succ. unfold Z.succ.
      rewrite Qpower_plus' by lia.
      change ((1 + annualReturnRate i / 100 / 12) ^ 1)
        with (1 + annualReturnRate i / 100 / 12).
      ring.
Qed.

End ExactFlows.

Lemma X6_monthly_cash_change_witness :
  (Z.of_nat 1 <= 12)%Z /\
  exists e1 e2,
    generateProjectionData INITIAL_STATE 12 !! 0%nat = Some e1 /\
    generateProjectionData INITIAL_STATE 12 !! 1%nat = Some e2 /\
    (actualSavings e2
     == actualSavings e1 + netFlow INITIAL_STATE - paymentsAt INITIAL_STATE 0
        - App.monthlyInvContribution INITIAL_STATE)%Q.
Proof.
  split; [lia|]. exact (X6_monthly_cash_change INITIAL_STATE 12 0 ltac:(lia)).
Defined.

Lemma X7_cash_difference_witness :
  loans BETTER_CARD_STATE = loans INITIAL_STATE /\
  investments BETTER_CARD_STATE = investments INITIAL_STATE /\
  (currentCash (varsAt BETTER_CARD_STATE 12)
   - currentCash (varsAt INITIAL_STATE 12)
   == (cashBalance BETTER_CARD_STATE - cashBalance INITIAL_STATE)
      + inject_Z (Z.of_nat 12)
        * (netFlow BETTER_CARD_STATE - netFlow INITIAL_STATE))%Q.
Proof.
  split; [reflexivity|]. split; [reflexivity|].
  exact (X7_cash_difference_is_linear BETTER_CARD_STATE INITIAL_STATE 12
           eq_refl eq_refl).
Defined.

Lemma X8_investment_value_witness :
  Forall investmentOK (investments INITIAL_STATE) /\
  exists e1 e2,
    generateProjectionData INITIAL_STATE 12 !! 11%nat = Some e1 /\
    generateProjectionData INITIAL_STATE 12 !! 12%nat = Some e2 /\
    (investmentValue e1 <= investmentValue e2)%Q.
Proof.
  assert (Hok : Forall investmentOK (investments INITIAL_STATE))
    by (repeat constructor; vm_compute; discriminate).
  split; [exact Hok|].
  exact (X8_investment_value_grows INITIAL_STATE 12 11 Hok ltac:(lia)).
Defined.

Lemma X9_compound_growth_witness :
  (monthlyContribution (mkInvestment "i1" "Index Fund" 10000 6 0) == 0)%Q /\
  exists ik,
    activeInvestments (varsAt LUMP_SUM_STATE 12) !! 0%nat = Some ik /\
    (balance ik == 10000 * (1 + 6 / 100 / 12) ^ 12)%Q.
Proof.
  assert (Hc : (monthlyContribution (mkInvestment "i1" "Index Fund" 10000 6 0)
                == 0)%Q) by reflexivity.
  split; [exact Hc|].
  exact (X9_compound_growth LUMP_SUM_STATE 0 12 _ eq_refl Hc).
Defined.

(** ** The risk radar, in exact arithmetic *)

Section ExactRisk.
Open Scope Q_scope.

Lemma Qeq_bool_false (a b : Q) : Qeq_bool a b = false <-> ~ a == b.
Proof.
  split.
  - intros Hf He. apply Qeq_bool_iff in He. congruence.
  - intros Hn. destruct (Qeq_bool a b) eqn:E; [|reflexivity].
    apply Qeq_bool_iff in E. contradiction.
Qed.

(** X10. The debt-to-income bands: a ratio of 0 is "Debt Free", a ratio
    up to 20 is "Healthy" (negative ratios included), above 20 and up to
    36 is "Manageable", above 36 is "High Burden"; in particular 36 is
    "Manageable" and 36.01 is "High Burden". *)
Theorem X10_dti_bands (ratio : Q) :
  (ratio == 0 ->
   RiskAnalysis.label (RiskAnalysis.getDtiStatus ratio) = "Debt Free") /\
  (~ ratio == 0 -> ratio <= 20 ->
   RiskAnalysis.label (RiskAnalysis.getDtiStatus ratio) = "Healthy") /\
  (20 < ratio <= 36 ->
   RiskAnalysis.label (RiskAnalysis.getDtiStatus ratio) = "Manageable") /\
  (36 < ratio ->
   RiskAnalysis.label (RiskAnalysis.getDtiStatus ratio) = "High Burden") /\
  RiskAnalysis.label (RiskAnalysis.getDtiStatus 36) = "Manageable" /\
  RiskAnalysis.label (RiskAnalysis.getDtiStatus 36.01) = "High Burden".
Proof.
  unfold RiskAnalysis.getDtiStatus.
  cbn [num_eq num_le lit Q_Number]. unfold inject_Z.
  split; [|split; [|split; [|split; [|split; reflexivity]]]].
  - intros He. apply Qeq_bool_iff in He. now rewrite He.
  - intros Hn Hle. apply Qeq_bool_false in Hn. apply Qle_bool_iff in Hle.
    now rewrite Hn, Hle.
  - intros [Hlo Hhi].
    assert (Hn : Qeq_bool ratio 0 = false) by (apply Qeq_bool_false; lra).
    assert (H20 : Qle_bool ratio 20 = false) by (apply Qle_bool_false; lra).
    apply Qle_bool_iff in Hhi. now rewrite Hn, H20, Hhi.
  - intros Hlo.
    assert (Hn : Qeq_bool ratio 0 = false) by (apply Qeq_bool_false; lra).
    assert (H20 : Qle_bool ratio 20 = false) by (apply Qle_bool_false; lra).
    assert (H36 : Qle_bool ratio 36 = false) by (apply Qle_bool_false; lra).
    now rewrite Hn, H20, H36.
Qed.

(** X11. The radar shows "Debt Free" exactly when the monthly income is
    not positive or the loan payments add up to 0; so a state without
    loans is "Debt Free", and so is a state with loans and no income. *)
Theorem X11_debt_free_iff (state : FinancialState Q) :
  (RiskAnalysis.label (RiskAnalysis.dtiStatus state) = "Debt Free" <->
   monthlyIncome state <= 0 \/ RiskAnalysis.debtPayments state == 0) /\
  (loans state = [] ->
   RiskAnalysis.label (RiskAnalysis.dtiStatus state) = "Debt Free").
Proof.
  assert (Hiff :
    RiskAnalysis.label (RiskAnalysis.dtiStatus state) = "Debt Free" <->
    monthlyIncome state <= 0 \/ RiskAnalysis.debtPayments state == 0).
  { unfold RiskAnalysis.dtiStatus, RiskAnalysis.dtiRatio.
    cbn [num_gt num_div num_mul lit Q_Number]. unfold inject_Z.
    destruct (Qlt_bool 0 (monthlyIncome state)) eqn:Hinc.
    - apply Qlt_bool_iff in Hinc.
      assert (Hz : RiskAnalysis.debtPayments state / monthlyIncome state * 100 == 0
                   <-> RiskAnalysis.debtPayments state == 0).
      { split; intros He.
        - assert (Hd : RiskAnalysis.debtPayments state
                       == (RiskAnalysis.debtPayments state
                           / monthlyIncome state * 100)
                          * monthlyIncome state / 100)
            by (field; lra).
          rewrite Hd, He. field.
        - rewrite He. field. lra. }
      split.
      + intros Hlab. right. apply Hz.
        destruct (Qeq_dec (RiskAnalysis.debtPayments state
                           / monthlyIncome state * 100) 0) as [He|Hne];
          [exact He|].
        exfalso. revert Hlab.
        unfold RiskAnalysis.getDtiStatus.
        cbn [num_eq num_le lit Q_Number]. unfold inject_Z.
        apply Qeq_bool_false in Hne. rewrite Hne.
        destruct (Qle_bool _ 20); [discriminate|].
        destruct (Qle_bool _ 36); discriminate.
      + intros [Hle|He]; [lra|].
        apply Hz in He. unfold RiskAnalysis.getDtiStatus.
        cbn [num_eq num_le lit Q_Number]. unfold inject_Z.
        apply Qeq_bool_iff in He. now rewrite He.
    - intros. split; [|reflexivity].
      intros _. left. now apply Qlt_bool_false in Hinc. }
  split; [exact Hiff|].
  intros Hnil. apply Hiff. right.
  unfold RiskAnalysis.debtPayments. rewrite Hnil. reflexivity.
Qed.

Lemma emergency_label_of_ratio (ratio : Q) :
  (6 <= ratio ->
   RiskAnalysis.label (RiskAnalysis.getEmergencyStatus ratio) = "Excellent") /\
  (3 <= ratio < 6 ->
   RiskAnalysis.label (RiskAnalysis.getEmergencyStatus ratio) = "Good") /\
  (1 <= ratio < 3 ->
   RiskAnalysis.label (RiskAnalysis.getEmergencyStatus ratio) = "At Risk") /\
  (ratio < 1 ->
   RiskAnalysis.label (RiskAnalysis.getEmergencyStatus ratio) = "Critical").
Proof.
  unfold RiskAnalysis.getEmergencyStatus.
  cbn [num_ge lit Q_Number]. unfold inject_Z.
  repeat split.
  - intros H6. apply Qle_bool_iff in H6. now rewrite H6.
  - intros [H3 H6]. apply Qle_bool_iff in H3. apply Qle_bool_false in H6.
    now rewrite H6, H3.
  - intros [H1 H3].
    assert (H6 : Qle_bool 6 ratio = false) by (apply Qle_bool_false; lra).
    apply Qle_bool_iff in H1. apply Qle_bool_false in H3.
    now rewrite H6, H3, H1.
  - intros H1.
    assert (H3 : Qle_bool 3 ratio = false) by (apply Qle_bool_false; lra).
    assert (H6 : Qle_bool 6 ratio = false) by (apply Qle_bool_false; lra).
    apply Qle_bool_false in H1. now rewrite H6, H3, H1.
Qed.

(** X12. The emergency-fund label in months of burn: with a positive
    burn, "Excellent" is cash of at least 6 months of burn, "Good" at least
    3, "At Risk" at least 1, "Critical" less than 1; with a burn that is
    not positive the label is "Critical" whatever the cash. *)
Theorem X12_emergency_status_in_months (state : FinancialState Q) :
  let burn := RiskAnalysis.totalBurn state in
  let cash := cashBalance state in
  let status := RiskAnalysis.label (RiskAnalysis.emergencyStatus state) in
  (burn <= 0 -> status = "Critical") /\
  (0 < burn ->
   (6 * burn <= cash -> status = "Excellent") /\
   (3 * burn <= cash < 6 * burn -> status = "Good") /\
   (1 * burn <= cash < 3 * burn -> status = "At Risk") /\
   (cash < 1 * burn -> status = "Critical")).
Proof.
  cbn zeta. unfold RiskAnalysis.emergencyStatus, RiskAnalysis.emergencyRatio.
  cbn [num_gt num_div lit Q_Number]. unfold inject_Z.
  split.
  - intros Hb. apply Qlt_bool_false in Hb. rewrite Hb. reflexivity.
  - intros Hb. pose proof Hb as Hb'. apply Qlt_bool_iff in Hb'. rewrite Hb'.
    destruct (emergency_label_of_ratio
                (cashBalance state / RiskAnalysis.totalBurn state))
      as (H6 & H3 & H1 & H0).
    assert (Hdiv : forall c : Q,
               (c * RiskAnalysis.totalBurn state <= cashBalance state
                <-> c <= cashBalance state / RiskAnalysis.totalBurn state) /\
               (cashBalance state < c * RiskAnalysis.totalBurn state
                <-> cashBalance state / RiskAnalysis.totalBurn state < c)).
    { intros c. split; split; intros Hc.
      - apply Qle_shift_div_l; assumption.
      - apply Qmult_le_r with (z := / RiskAnalysis.totalBurn state);
          [apply Qinv_lt_0_compat; exact Hb|].
        rewrite <- Qmult_assoc, Qmult_inv_r, Qmult_1_r by lra. exact Hc.
      - apply Qlt_shift_div_r; assumption.
      - apply Qmult_lt_r with (z := / RiskAnalysis.totalBurn state);
          [apply Qinv_lt_0_compat; exact Hb|].
        rewrite <- Qmult_assoc, Qmult_inv_r, Qmult_1_r by lra. exact Hc. }
    repeat split.
    + intros Hc. apply H6. now apply Hdiv.
    + intros [Hlo Hhi]. apply H3. split; now apply Hdiv.
    + intros [Hlo Hhi]. apply H1. split; now apply Hdiv.
    + intros Hhi. apply H0. now apply Hdiv.
Qed.

End ExactRisk.

(** ** The high-interest alert and the scenario actions *)

Section ExactAlert.
Open Scope Q_scope.
Variables (toFixed : Q -> nat -> string) (numberToString : Q -> string).

(** X13. Applying the simulated card (APR 19.99) or adding an investment
    never changes the high-interest alert; adding a loan raises it exactly
    when the loan's rate is above 10 or the alert was already on. *)
Theorem X13_alert_after_actions (now : Z) (x y : Q) (s : FinancialState Q) :
  highInterestDetected (SimulationActions.addCreditCard numberToString now x s)
  = highInterestDetected s /\
  highInterestDetected (SimulationActions.addInvestment now x y s)
  = highInterestDetected s /\
  highInterestDetected (SimulationControl.addLoan toFixed now x y s)
  = (highInterestDetected s || Qlt_bool 10 y)%bool.
Proof.
  unfold highInterestDetected. cbn [creditCards loans
    SimulationActions.addCreditCard SimulationActions.addInvestment
    SimulationControl.addLoan].
  rewrite !existsb_app. cbn [existsb card_interestRate interestRate].
  repeat split.
  - change (num_gt SimulationActions.apr_19_99 (lit 20)) with false.
    now rewrite !orb_false_r.
  - rewrite orb_false_r. cbn [num_gt lit Q_Number]. unfold inject_Z.
    now rewrite orb_assoc.
Qed.

End ExactAlert.

(** ** The mock credit score, in exact arithmetic *)

Section ExactScore.
Open Scope Q_scope.

Lemma lengthOf_nonneg {A : Type} (xs : list A) :
  0 <= CreditScore.lengthOf (num := Q) xs.
Proof.
  unfold CreditScore.lengthOf. cbn [lit Q_Number].
  change 0 with (inject_Z 0). rewrite <- Zle_Qle. lia.
Qed.

Lemma calculateMockScore_raw (state : FinancialState Q) :
  CreditScore.calculateMockScore state
  = inject_Z (Qfloor (Qmax 300 (Qmin 850 (rawScore state)) + (1 # 2))).
Proof. reflexivity. Qed.

Lemma rawScore_le (state : FinancialState Q) : rawScore state <= 750.
Proof.
  unfold rawScore.
  pose proof (lengthOf_nonneg (loans state)) as Hl.
  pose proof (lengthOf_nonneg (creditCards state)) as Hc.
  destruct (Qlt_bool 30 (CreditCoach.dti state)) eqn:Hd.
  - apply Qlt_bool_iff in Hd. lra.
  - lra.
Qed.

Lemma round_bounds (x : Q) (lo hi : Z) :
  inject_Z lo <= x -> x <= inject_Z hi ->
  (lo <= Qfloor (x + (1 # 2)) <= hi)%Z.
Proof.
  intros Hlo Hhi.
  pose proof (Qfloor_le (x + (1 # 2))) as Hf.
  pose proof (Qlt_floor (x + (1 # 2))) as Hc.
  split.
  - assert (Hlt : inject_Z lo < inject_Z (Qfloor (x + (1 # 2)) + 1)) by lra.
    rewrite <- Zlt_Qlt in Hlt. lia.
  - assert (Hlt : inject_Z (Qfloor (x + (1 # 2))) < inject_Z (hi + 1)).
    { rewrite inject_Z_plus. change (inject_Z 1) with 1. lra. }
    rewrite <- Zlt_Qlt in Hlt. lia.
Qed.

(** X14. The score is a whole number between 300 and 750: nothing in
    the computation adds to the base of 750, so the ceiling of 850 is never
    reached and the colour of the 800+ band is never shown. *)
Theorem X14_score_range (state : FinancialState Q) :
  let score := CreditScore.calculateMockScore state in
  (exists n : Z, score = inject_Z n /\ (300 <= n <= 750)%Z) /\
  300 <= score <= 750 /\
  CreditScore.getScoreColor score <> "text-emerald-600".
Proof.
  cbn zeta. rewrite calculateMockScore_raw.
  set (m := Qmax 300 (Qmin 850 (rawScore state))).
  assert (Hm : inject_Z 300 <= m /\ m <= inject_Z 750).
  { subst m. unfold inject_Z. split; [apply Q.le_max_l|].
    apply Q.max_lub; [lra|].
    eapply Qle_trans; [apply Q.le_min_r | apply rawScore_le]. }
  destruct (round_bounds m 300 750 (proj1 Hm) (proj2 Hm)) as [Hlo Hhi].
  assert (Hq : 300 <= inject_Z (Qfloor (m + (1 # 2))) <= 750).
  { change 300 with (inject_Z 300). change 750 with (inject_Z 750).
    rewrite <- !Zle_Qle. lia. }
  split; [eexists; split; [reflexivity | lia]|].
  split; [exact Hq|].
  set (sc := inject_Z (Qfloor (m + (1 # 2)))) in *.
  unfold CreditScore.getScoreColor. cbn [num_ge lit Q_Number]. unfold inject_Z.
  assert (H800 : Qle_bool 800 sc = false) by (apply Qle_bool_false; lra).
  rewrite H800.
  destruct (Qle_bool 740 _); [discriminate|].
  destruct (Qle_bool 670 _); discriminate.
Qed.

(** X15. When the debt-to-income ratio is at most 30 and the accounts
    take off at most 450 points, the score is exactly
    750 - 5 per loan - 2 per card; in particular 750 with no loans and no
    cards. *)
Theorem X15_score_by_accounts (state : FinancialState Q) :
  CreditCoach.dti state <= 30 ->
  (5 * Z.of_nat (length (loans state))
   + 2 * Z.of_nat (length (creditCards state)) <= 450)%Z ->
  CreditScore.calculateMockScore state
  = inject_Z (750 - 5 * Z.of_nat (length (loans state))
              - 2 * Z.of_nat (length (creditCards state))).
Proof.
  intros Hdti Hacc. rewrite calculateMockScore_raw. f_equal.
  set (n := (750 - 5 * Z.of_nat (length (loans state))
             - 2 * Z.of_nat (length (creditCards state)))%Z).
  assert (Hraw : rawScore state == inject_Z n).
  { unfold rawScore. apply Qlt_bool_false in Hdti. rewrite Hdti.
    unfold CreditScore.lengthOf. cbn [lit Q_Number]. subst n.
    unfold Z.sub. rewrite !inject_Z_plus, !inject_Z_opp, !inject_Z_mult.
    change (inject_Z 750) with 750. change (inject_Z 5) with 5.
    change (inject_Z 2) with 2. ring. }
  assert (Hn : (300 <= n <= 750)%Z) by (subst n; lia).
  assert (Hm : Qmax 300 (Qmin 850 (rawScore state)) == inject_Z n).
  { rewrite Hraw.
    assert (Hq : 300 <= inject_Z n <= 750).
    { change 300 with (inject_Z 300). change 750 with (inject_Z 750).
      rewrite <- !Zle_Qle. lia. }
    rewrite Q.min_r by lra. apply Q.max_r. lra. }
  rewrite Hm.
  pose proof (Qfloor_le (inject_Z n + (1 # 2))) as Hf.
  pose proof (Qlt_floor (inject_Z n + (1 # 2))) as Hc.
  assert (H1 : inject_Z (Qfloor (inject_Z n + (1 # 2))) < inject_Z (n + 1)).
  { rewrite inject_Z_plus. change (inject_Z 1) with 1. lra. }
  assert (H2 : inject_Z n < inject_Z (Qfloor (inject_Z n + (1 # 2)) + 1)%Z) by lra.
  rewrite <- Zlt_Qlt in H1, H2. lia.
Qed.

End ExactScore.

Lemma X15_score_witness :
  (CreditCoach.dti INITIAL_STATE <= 30)%Q /\
  CreditScore.calculateMockScore INITIAL_STATE = inject_Z 743.
Proof.
  assert (Hd : (CreditCoach.dti INITIAL_STATE <= 30)%Q)
    by (vm_compute; discriminate).
  split; [exact Hd|].
  exact (X15_score_by_accounts INITIAL_STATE Hd ltac:(cbn; lia)).
Defined.

(** ** Adding a transaction *)

Section ExactTransactions.
Open Scope Q_scope.
Variable parseFloat : string -> Q.

Lemma not_empty (s : string) : s <> "" -> String.eqb s "" = false.
Proof. intros Hs. now apply String.eqb_neq. Qed.


(** X17. The projection takes its monthly income from the income
    transactions as soon as there is one: a state without income
    transactions projects with its [monthlyIncome] figure, and after one
    income transaction of a non-zero amount [a] is added it projects with a
    monthly income of [a], whatever [monthlyIncome] says. *)
Theorem X17_first_income_transaction (now : Z)
        (today desc amt cat : string) (s : FinancialState Q) :
  Forall (fun t => type t = expense) (transactions s) ->
  desc <> "" -> amt <> "" -> ~ parseFloat amt == 0 ->
  let s' := AppHandlers.handleAddTransaction parseFloat now today desc amt cat
                                             income s in
  statMonthlyIncome (stateStats s) = monthlyIncome s /\
  statMonthlyIncome (stateStats s') == parseFloat amt.
Proof.
  intros Hexp Hd Ha Hnz. cbn zeta.
  assert (Hnone : List.filter isIncome (transactions s) = []).
  { induction Hexp as [|t ts Ht _ IH]; [reflexivity|].
    cbn. unfold isIncome at 1. now rewrite Ht. }
  unfold AppHandlers.handleAddTransaction.
  rewrite (not_empty _ Hd), (not_empty _ Ha). cbn [orb].
  unfold stateStats, baseStats, baseMonthlyIncome.
  cbn [statMonthlyIncome transactions monthlyIncome List.filter isIncome type
       TransactionType_eqb].
  rewrite Hnone. split; [reflexivity|].
  cbn [sumOf fold_left amount truthy lit num_add Q_Number].
  assert (Ht : Qeq_bool (inject_Z 0 + parseFloat amt) 0 = false).
  { destruct (Qeq_bool _ 0) eqn:E; [|reflexivity].
    apply Qeq_bool_iff in E. exfalso. apply Hnz.
    unfold inject_Z in E. lra. }
  unfold sumOf. cbn. rewrite Ht. cbn. unfold inject_Z. ring.
Qed.

End ExactTransactions.

(** ** The expense breakdown *)

Section ExactCharts.
Open Scope Q_scope.
Variables (numberToString : Q -> string) (functionToString : string -> string).

Local Abbreviation addToCategory :=
  (Charts.addToCategory numberToString functionToString).
Local Abbreviation expensesByCategory :=
  (Charts.expensesByCategory numberToString functionToString).
Local Abbreviation isNumber :=
  (fun kv : string * JsObject.Value Q => exists n, snd kv = JsObject.JsNumber n).
Local Abbreviation shown :=
  (fun kv : string * JsObject.Value Q => numberOf (snd kv)).

Lemma existsb_eqb_In (key : string) (ks : list string) :
  existsb (String.eqb key) ks = true <-> In key ks.
Proof.
  rewrite existsb_exists. split.
  - intros (x & Hin & He). apply String.eqb_eq in He. now subst.
  - intros Hin. exists key. split; [exact Hin | apply String.eqb_refl].
Qed.

Lemma sumOf_Permutation {A : Type} (f : A -> Q) (xs ys : list A) :
  Permutation xs ys -> sumOf f xs == sumOf f ys.
Proof.
  induction 1 as [|x xs ys _ IH|x y xs|xs ys zs _ IH1 _ IH2].
  - reflexivity.
  - rewrite !sumOf_cons, IH. reflexivity.
  - rewrite !sumOf_cons. ring.
  - now rewrite IH1.
Qed.

(** [Object.keys] lists every own property name once. *)
Lemma keys_Permutation {num : Type} (o : JsObject.Obj num) :
  Permutation (JsObject.keys o) (map fst o).
Proof.
  unfold JsObject.keys. rewrite merge_sort_Permutation.
  induction (map fst o) as [|key names IH]; [reflexivity|].
  cbn [omap list_omap List.filter].
  destruct (JsObject.arrayIndex key) as [n|] eqn:E; cbn.
  - constructor. exact IH.
  - rewrite <- Permutation_middle. constructor. exact IH.
Qed.

Lemma getOwn_In {num : Type} (o : JsObject.Obj num) (key : string)
      (v : JsObject.Value num) :
  NoDup (map fst o) -> In (key, v) o -> JsObject.getOwn key o = Some v.
Proof.
  induction o as [|[k w] o IH]; intros Hnd Hin; [destruct Hin|].
  cbn [map fst] in Hnd. apply NoDup_cons in Hnd as [Hk Hnd].
  cbn [JsObject.getOwn]. destruct Hin as [[= -> ->]|Hin].
  - now rewrite String.eqb_refl.
  - destruct (String.eqb_spec k key) as [->|_]; [|now apply IH].
    exfalso. apply Hk. apply list_elem_of_In, in_map_iff.
    exists (key, v). split; [reflexivity | exact Hin].
Qed.

(** The update of an ordinary key: the total under the key grows by the
    amount, and a key that is new goes last. *)
Lemma setOwn_ordinary (key : string) (a : Q) (acc : JsObject.Obj Q) :
  Forall isNumber acc ->
  let current := match JsObject.getOwn key acc with
                 | Some v => v
                 | None => JsObject.JsUndefined
                 end in
  let acc' := JsObject.setOwn key
                (JsObject.orZeroPlus numberToString current a) acc in
  Forall isNumber acc' /\
  sumOf shown acc' == sumOf shown acc + a /\
  map fst acc'
  = if existsb (String.eqb key) (map fst acc)
    then map fst acc else map fst acc ++ [key].
Proof.
  induction 1 as [|[k v] acc [n Hn] Hacc IH]; cbn zeta.
  - cbn. repeat split.
    + repeat constructor. now eexists.
    + unfold sumOf. cbn. ring.
  - cbn [JsObject.getOwn JsObject.setOwn map fst existsb].
    rewrite (String.eqb_sym key k).
    destruct (String.eqb k key); cbn [orb].
    + cbn [snd] in Hn. subst v. cbn [JsObject.orZeroPlus].
      split; [constructor; [now eexists | exact Hacc]|].
      split; [|reflexivity].
      rewrite !sumOf_cons. cbn [snd numberOf truthy lit num_add Q_Number].
      destruct (Qeq_bool n 0) eqn:E; cbn [negb].
      * apply Qeq_bool_iff in E. rewrite E. unfold inject_Z. ring.
      * ring.
    + cbn zeta in IH. destruct IH as (Hnum & Hsum & Hkeys).
      split; [constructor; [now exists n | exact Hnum]|].
      split.
      * rewrite !sumOf_cons, Hsum. ring.
      * cbn [map fst]. rewrite Hkeys. now destruct (existsb _ _).
Qed.

Lemma ordinaryKey_get {num : Type} (key : string) (o : JsObject.Obj num) :
  ordinaryKey key = true ->
  String.eqb key "__proto__" = false /\
  JsObject.get functionToString key o
  = match JsObject.getOwn key o with
    | Some v => v
    | None => JsObject.JsUndefined
    end.
Proof.
  unfold ordinaryKey, JsObject.get. intros Hk.
  apply negb_true_iff in Hk.
  assert (Hp : String.eqb key "__proto__" = false).
  { destruct (String.eqb_spec key "__proto__") as [->|]; [|reflexivity].
    discriminate Hk. }
  split; [exact Hp|]. now rewrite Hp, Hk.
Qed.

Lemma addToCategory_ordinary (acc : JsObject.Obj Q) (t : Transaction Q) :
  ordinaryKey (category t) = true ->
  Forall isNumber acc ->
  Forall isNumber (addToCategory acc t) /\
  sumOf shown (addToCategory acc t) == sumOf shown acc + amount t /\
  map fst (addToCategory acc t)
  = if existsb (String.eqb (category t)) (map fst acc)
    then map fst acc else map fst acc ++ [category t].
Proof.
  intros Hk Hacc. unfold Charts.addToCategory, JsObject.set.
  destruct (ordinaryKey_get (category t) acc Hk) as [-> ->].
  exact (setOwn_ordinary (category t) (amount t) acc Hacc).
Qed.

Lemma fold_categories (xs : list (Transaction Q)) (acc : JsObject.Obj Q) :
  Forall (fun t => ordinaryKey (category t) = true) xs ->
  Forall isNumber acc ->
  let r := fold_left addToCategory xs acc in
  Forall isNumber r /\
  sumOf shown r == sumOf shown acc + sumOf amount xs /\
  (NoDup (map fst acc) -> NoDup (map fst r)) /\
  (forall c, In c (map fst r) <->
             In c (map fst acc) \/ In c (map category xs)).
Proof.
  intros Hxs. revert acc.
  induction Hxs as [|t xs Ht _ IH]; intros acc Hacc; cbn zeta.
  - cbn [fold_left map In]. split; [exact Hacc|].
    split; [unfold sumOf at 3; cbn; ring|].
    split; [auto | intuition].
  - cbn [fold_left].
    destruct (addToCategory_ordinary acc t Ht Hacc) as (Hnum & Hadd & Hk).
    destruct (IH (addToCategory acc t) Hnum) as (Hr & Hsum & Hnd & Hin).
    split; [exact Hr|]. split; [|split].
    + rewrite Hsum, Hadd, sumOf_cons. ring.
    + intros Hnda. apply Hnd. rewrite Hk.
      destruct (existsb _ _) eqn:E; [exact Hnda|].
      apply NoDup_app. split; [exact Hnda|]. split.
      * intros x Hx [<-|[]]%list_elem_of_In.
        apply list_elem_of_In, existsb_eqb_In in Hx. congruence.
      * repeat constructor. intros []%list_elem_of_In.
    + intros c. rewrite Hin, Hk. cbn [map In].
      destruct (existsb _ _) eqn:E.
      * apply existsb_eqb_In in E. split; [intuition|].
        intros [Hc|[<-|Hc]]; auto.
      * rewrite in_app_iff. cbn [In]. intuition.
Qed.


End ExactCharts.


Section ProtoCategory.
Context {num : Type} `{Number num}.
Variables (numberToString : num -> string) (functionToString : string -> string).

Local Abbreviation addToCategory :=
  (Charts.addToCategory numberToString functionToString).

Lemma setOwn_names (key : string) (v : JsObject.Value num)
      (o : JsObject.Obj num) (c : string) :
  In c (map fst (JsObject.setOwn key v o)) -> c = key \/ In c (map fst o).
Proof.
  induction o as [|[k w] o IH]; cbn [JsObject.setOwn].
  - cbn. intuition.
  - destruct (String.eqb k key); cbn [map fst In]; [intuition|].
    intros [Hc|Hc]; [auto|]. destruct (IH Hc); auto.
Qed.

Lemma fold_never_proto (xs : list (Transaction num)) (acc : JsObject.Obj num) :
  ~ In "__proto__" (map fst acc) ->
  ~ In "__proto__" (map fst (fold_left addToCategory xs acc)).
Proof.
  revert acc. induction xs as [|t xs IH]; intros acc Hacc; [exact Hacc|].
  cbn [fold_left]. apply IH.
  unfold Charts.addToCategory, JsObject.set.
  destruct (String.eqb_spec (category t) "__proto__") as [He|Hne];
    [exact Hacc|].
  intros Hin. apply setOwn_names in Hin as [Hc|Hc]; [|now apply Hacc].
  now apply Hne.
Qed.

Lemma fold_skips_proto (xs : list (Transaction num)) (acc : JsObject.Obj num) :
  fold_left addToCategory xs acc
  = fold_left addToCategory
      (List.filter (fun t => negb (String.eqb (category t) "__proto__")) xs)
      acc.
Proof.
  revert acc. induction xs as [|t xs IH]; intros acc; [reflexivity|].
  cbn [fold_left List.filter].
  destruct (String.eqb (category t) "__proto__") eqn:E; cbn [negb].
  - rewrite <- IH. f_equal. unfold Charts.addToCategory, JsObject.set.
    now rewrite E.
  - cbn [fold_left]. apply IH.
Qed.

(** X24. An expense whose category is [__proto__] never reaches the pie:
    no slice has that name, and the slices are those of the transactions
    without these expenses, whatever their amounts. *)
Theorem X24_proto_category_is_dropped (txs : list (Transaction num)) :
  let data := Charts.expenseBreakdownData numberToString functionToString in
  ~ In "__proto__" (map Charts.slice_name (data txs)) /\
  data txs
  = data (List.filter (fun t => negb (String.eqb (category t) "__proto__"))
                      txs).
Proof.
  cbn zeta. split.
  - unfold Charts.expenseBreakdownData. rewrite map_map. cbn. rewrite map_id.
    intros Hin. apply (Permutation_in _ (keys_Permutation _)) in Hin.
    revert Hin. apply fold_never_proto. intros [].
  - unfold Charts.expenseBreakdownData, Charts.expensesByCategory.
    assert (Hf : List.filter isExpense
                   (List.filter
                      (fun t => negb (String.eqb (category t) "__proto__")) txs)
                 = List.filter
                     (fun t => negb (String.eqb (category t) "__proto__"))
                     (List.filter isExpense txs)).
    { induction txs as [|t txs IH]; [reflexivity|]. cbn [List.filter].
      destruct (negb _) eqn:E1, (isExpense t) eqn:E2; cbn [List.filter];
        rewrite ?E1, ?E2, IH; reflexivity. }
    rewrite Hf, <- fold_skips_proto. reflexivity.
Qed.

End ProtoCategory.

(** ** The net-worth chart *)

Section ChartAlignment.
Context {num : Type} `{Number num}.

(** X19. The net-worth chart has 13 points, labelled M0 to M12, whose
    current value is the net worth of the current projection; when a
    simulated state is given every point has a simulated value, the net
    worth of the simulated projection for the same month, and when none is
    given no point has one. *)
Theorem X19_chart_points (current : FinancialState num)
        (simulated : option (FinancialState num)) (k : nat) :
  length (Charts.mergedData current simulated) = 13%nat /\
  (k <= 12 ->
   exists p,
     Charts.mergedData current simulated !! k = Some p /\
     Charts.name p = monthLabel k /\
     Charts.Current p = actualNetWorth (snapshot (Z.of_nat k) (varsAt current k)) /\
     Charts.Simulated p
     = option_map (fun s => actualNetWorth (snapshot (Z.of_nat k) (varsAt s k)))
                  simulated).
Proof.
  unfold Charts.mergedData. split.
  - rewrite length_imap, generateProjectionData_length. reflexivity.
  - intros Hk. rewrite list_lookup_imap.
    rewrite generateProjectionData_lookup by lia. cbn [fmap option_fmap option_map].
    eexists. split; [reflexivity|]. cbn [Charts.name Charts.Current Charts.Simulated].
    repeat split.
    destruct simulated as [s|]; cbn [option_map].
    + now rewrite generateProjectionData_lookup by lia.
    + reflexivity.
Qed.

End ChartAlignment.

Lemma X19_chart_points_witness :
  (12 <= 12)%nat /\
  exists p,
    Charts.mergedData INITIAL_STATE (Some PAID_OFF_STATE) !! 12%nat = Some p /\
    Charts.name p = "M12" /\
    Charts.Simulated p
    = Some (actualNetWorth (snapshot 12 (varsAt PAID_OFF_STATE 12))).
Proof.
  split; [lia|].
  destruct (proj2 (X19_chart_points INITIAL_STATE (Some PAID_OFF_STATE) 12)
                  ltac:(lia)) as (p & Hp & Hn & _ & Hs).
  exists p. split; [exact Hp|]. split; [exact Hn | exact Hs].
Defined.

(** ** The scenario actions and what the dashboard shows *)

Section ExactActions.
Open Scope Q_scope.
Variables (toFixed : Q -> nat -> string) (numberToString : Q -> string).

Lemma sumOf_snoc_Q {A : Type} (f : A -> Q) (xs : list A) (x : A) :
  sumOf f (xs ++ [x]) == sumOf f xs + f x.
Proof. rewrite sumOf_snoc. reflexivity. Qed.

(** X20. The impact panel after one action on a simulated state [s]
    compared with [s] itself: the new loan debt is the loan amount after
    [addLoan] and 0 after [addInvestment] or [addCreditCard]; the yearly
    investment contribution is 12 times the monthly contributions, and
    grows by 12 times the entered amount after [addInvestment]. *)
Theorem X20_impact_panel (now : Z) (x y : Q) (s : FinancialState Q) :
  AppHandlers.newLoanDebt (SimulationControl.addLoan toFixed now x y s) s == x /\
  AppHandlers.newLoanDebt (SimulationActions.addInvestment now x y s) s == 0 /\
  AppHandlers.newLoanDebt
    (SimulationActions.addCreditCard numberToString now x s) s == 0 /\
  AppHandlers.investmentsContribution s
  == 12 * App.monthlyInvContribution s /\
  AppHandlers.investmentsContribution
    (SimulationActions.addInvestment now x y s)
  == AppHandlers.investmentsContribution s + 12 * x.
Proof.
  assert (Hyear : forall ivs (a0 : Q),
             fold_left (fun a i => a + monthlyContribution i * 12) ivs a0
             == a0 + 12 * sumOf monthlyContribution ivs).
  { induction ivs as [|i ivs IH]; intros a0.
    - unfold sumOf. cbn. ring.
    - cbn [fold_left]. rewrite IH, sumOf_cons. ring. }
  unfold AppHandlers.newLoanDebt, AppHandlers.investmentsContribution,
    App.monthlyInvContribution.
  cbn [loans investments SimulationControl.addLoan
       SimulationActions.addInvestment SimulationActions.addCreditCard
       num_sub num_add num_mul lit Q_Number].
  unfold inject_Z.
  split; [rewrite sumOf_snoc_Q; cbn [principal]; ring|].
  split; [ring|]. split; [ring|]. split.
  - rewrite Hyear. ring.
  - rewrite fold_left_app. cbn [fold_left monthlyContribution].
    ring.
Qed.

(** X21. None of the three actions changes the net worth at the moment
    it is applied: the borrowed amount is added to the cash and to the
    debt, a new investment starts at 0 and a card holds nothing.  The first
    entry of a projection carries the dashboard's net worth of the state
    projected, so it is the same before and after as well. *)
Theorem X21_actions_keep_net_worth (now : Z) (x y : Q) (s : FinancialState Q)
        (h : Z) :
  (0 <= h)%Z ->
  let after_loan := SimulationControl.addLoan toFixed now x y s in
  let after_investment := SimulationActions.addInvestment now x y s in
  let after_card := SimulationActions.addCreditCard numberToString now x s in
  AppHandlers.netWorth after_loan == AppHandlers.netWorth s /\
  AppHandlers.netWorth after_investment == AppHandlers.netWorth s /\
  AppHandlers.netWorth after_card = AppHandlers.netWorth s /\
  (forall s' : FinancialState Q,
     exists e, generateProjectionData s' h !! 0%nat = Some e /\
               actualNetWorth e = AppHandlers.netWorth s').
Proof.
  intros Hh. cbn zeta.
  unfold AppHandlers.netWorth, App.totalInvestments, App.totalDebt.
  cbn [loans investments cashBalance SimulationControl.addLoan
       SimulationActions.addInvestment SimulationActions.addCreditCard
       num_sub num_add lit Q_Number].
  split; [rewrite sumOf_snoc_Q; cbn [remainingBalance]; ring|].
  split; [rewrite sumOf_snoc_Q; cbn [balance lit Q_Number]; unfold inject_Z; ring|].
  split; [reflexivity|].
  intros s'. eexists. split.
  - apply generateProjectionData_lookup. lia.
  - reflexivity.
Qed.

(** *** Cashback *)

Lemma maxCashbackRate_snoc (cards : list (CreditCard Q)) (c : CreditCard Q) :
  maxCashbackRate (cards ++ [c])
  = Qmax (maxCashbackRate cards) (cashbackRate c).
Proof. unfold maxCashbackRate. now rewrite fold_left_app. Qed.

Lemma Qmax_left (a b : Q) : b <= a -> Qmax a b = a.
Proof.
  intros Hle. unfold Qmax, GenericMinMax.gmax.
  destruct (a ?= b) eqn:E; try reflexivity.
  apply <- Qlt_alt in E. exfalso. lra.
Qed.

Lemma Qmax_cases (a b : Q) : Qmax a b = a \/ Qmax a b = b.
Proof.
  unfold Qmax, GenericMinMax.gmax. destruct (a ?= b); auto.
Qed.

(** X22. The cashback rate the projection uses is the highest cashback
    rate among the cards and never below 0: it is 0 without cards, no card
    has a higher rate, and it is 0 or the rate of one of the cards. *)
Theorem X22_max_cashback_rate (cards : list (CreditCard Q)) :
  (cards = [] -> maxCashbackRate cards = 0) /\
  0 <= maxCashbackRate cards /\
  Forall (fun c => cashbackRate c <= maxCashbackRate cards) cards /\
  (maxCashbackRate cards = 0 \/
   exists c, In c cards /\ maxCashbackRate cards = cashbackRate c).
Proof.
  split; [intros ->; reflexivity|].
  induction cards as [|c cards IH] using rev_ind.
  - split; [vm_compute; discriminate|].
    split; [constructor | left; reflexivity].
  - destruct IH as (H0 & Hall & Hone).
    rewrite maxCashbackRate_snoc.
    split; [eapply Qle_trans; [exact H0 | apply Q.le_max_l]|].
    split.
    + apply List.Forall_app. split.
      * eapply List.Forall_impl; [|exact Hall]. cbn. intros a Ha.
        eapply Qle_trans; [exact Ha | apply Q.le_max_l].
      * constructor; [apply Q.le_max_r | constructor].
    + destruct (Qmax_cases (maxCashbackRate cards) (cashbackRate c)) as [E|E];
        rewrite E.
      * destruct Hone as [Hz|(c' & Hin & Hc')]; [left; exact Hz|].
        right. exists c'. split; [apply in_or_app; left; exact Hin | exact Hc'].
      * right. exists c. split; [apply in_or_app; right; left|]; reflexivity.
Qed.

(** X23. Applying a card whose cashback rate is not above the best rate
    already held changes no entry of the projection; and whatever its rate,
    the monthly cashback of the projection does not go down when the
    expenses are not negative. *)
Theorem X23_card_and_projection (now : Z) (x : Q) (s : FinancialState Q)
        (h : Z) :
  let s' := SimulationActions.addCreditCard numberToString now x s in
  (x <= maxCashbackRate (creditCards s) ->
   generateProjectionData s' h = generateProjectionData s h) /\
  (0 <= statMonthlyExpenses (stateStats s) ->
   statMonthlyCashback (stateStats s) <= statMonthlyCashback (stateStats s')).
Proof.
  cbn zeta. split.
  - intros Hx. unfold generateProjectionData, stateStats, initialVars, baseStats.
    cbn [creditCards transactions monthlyIncome loans investments cashBalance
         SimulationActions.addCreditCard].
    rewrite maxCashbackRate_snoc. cbn [cashbackRate].
    now rewrite (Qmax_left _ _ Hx).
  - intros He. unfold stateStats, baseStats in *.
    cbn [statMonthlyCashback statMonthlyExpenses creditCards transactions
         monthlyIncome SimulationActions.addCreditCard] in *.
    rewrite maxCashbackRate_snoc. cbn [cashbackRate num_mul num_div lit Q_Number].
    unfold inject_Z.
    pose proof (Q.le_max_l (maxCashbackRate (creditCards s)) x) as Hmax.
    rewrite !(Qmult_comm (baseMonthlyExpenses (transactions s))).
    apply Qmult_le_compat_r; [|exact He].
    unfold Qdiv. apply Qmult_le_compat_r; [exact Hmax | vm_compute; discriminate].
Qed.

End ExactActions.

Lemma X12_emergency_status_witness :
  (0 < RiskAnalysis.totalBurn INITIAL_STATE)%Q /\
  (6 * RiskAnalysis.totalBurn INITIAL_STATE <= cashBalance INITIAL_STATE)%Q /\
  RiskAnalysis.label (RiskAnalysis.emergencyStatus INITIAL_STATE) = "Excellent".
Proof.
  assert (Hb : (0 < RiskAnalysis.totalBurn INITIAL_STATE)%Q)
    by (vm_compute; reflexivity).
  assert (Hc : (6 * RiskAnalysis.totalBurn INITIAL_STATE
                <= cashBalance INITIAL_STATE)%Q)
    by (vm_compute; discriminate).
  split; [exact Hb|]. split; [exact Hc|].
  exact (proj1 (proj2 (X12_emergency_status_in_months INITIAL_STATE) Hb) Hc).
Defined.

Lemma X17_first_income_witness :
  let s' := AppHandlers.handleAddTransaction (fun _ => 100%Q) 0 "2023-11-01"
              "Salary" "100" "Income" income UNDERPAID_STATE in
  statMonthlyIncome (stateStats UNDERPAID_STATE) = monthlyIncome UNDERPAID_STATE /\
  (statMonthlyIncome (stateStats s') == 100)%Q.
Proof.
  refine (X17_first_income_transaction (fun _ => 100%Q) 0 "2023-11-01"
            "Salary" "100" "Income" UNDERPAID_STATE _ _ _ _).
  - constructor.
  - discriminate.
  - discriminate.
  - discriminate.
Defined.

Lemma X21_actions_witness :
  (0 <= 12)%Z /\
  (AppHandlers.netWorth
     (SimulationControl.addLoan (fun _ _ => "10.0") 0 10000 5.5 INITIAL_STATE)
   == AppHandlers.netWorth INITIAL_STATE)%Q.
Proof.
  split; [lia|].
  exact (proj1 (X21_actions_keep_net_worth (fun _ _ => "10.0") (fun _ => "")
                  0 10000%Q 5.5%Q INITIAL_STATE 12 ltac:(lia))).
Defined.

Lemma X23_card_witness :
  (1 <= maxCashbackRate (creditCards INITIAL_STATE))%Q /\
  generateProjectionData
    (SimulationActions.addCreditCard (fun _ => "1") 0 1%Q INITIAL_STATE) 12
  = generateProjectionData INITIAL_STATE 12.
Proof.
  assert (Hx : (1 <= maxCashbackRate (creditCards INITIAL_STATE))%Q)
    by (vm_compute; discriminate).
  split; [exact Hx|].
  exact (proj1 (X23_card_and_projection (fun _ => "1") 0 1%Q INITIAL_STATE 12)
           Hx).
Defined.

(** Evaluations of the further code on binary64. *)
Module F64Checks.
Import PrimFloat.
Import F64Samples.
#[local] Set Warnings "-inexact-float".

(** [Math.round] on ties, near ties, signed zeros and non-finite values. *)
Example round_samples :
  map F64Math.round
      [2.5; 3.5; -2.5; -3.5; 0.49999999999999994; 0.5; 1.4; 749.5]%float
  = [3; 4; -2; -3; 0; 1; 1; 750]%float /\
  map (fun x => Leibniz.eqb (F64Math.round x) neg_zero) [-0.2; -0.5]%float
  = [true; true] /\
  is_nan (F64Math.round nan) = true /\
  F64Math.round infinity = infinity.
Proof.
  vm_compute. repeat split.
Qed.

(** The score of [BARE_STATE]: one loan and no card take 5 off 750. *)
Example bare_state_score :
  CreditScore.calculateMockScore BARE_STATE = 745%float /\
  CreditScore.getScoreColor (CreditScore.calculateMockScore BARE_STATE)
  = "text-indigo-600" /\
  highInterestDetected BARE_STATE = false.
Proof.
  vm_compute. repeat split.
Qed.

End F64Checks.
